(** * wg-portal: the request-authorization core of [cmd/wg-portal/ui/handler.go]

    A shallow embedding of the handler of the web UI: the set-up of the
    authenticator registry ([NewHandler], [setupAuthProviders]), the
    authorization middleware ([authenticationMiddleware], [isUserStillValid])
    and the error reporter ([HandleError]).

    Go maps are [gmap]s, Go interfaces are records of methods, the [error]
    values of [github.com/pkg/errors] are a small inductive type, and the
    [*gin.Context] that every handler mutates is passed and returned. *)

From stdpp Require Import base option list strings gmap.
From Stdlib Require Import ZArith Lia.

Local Open Scope Z_scope.

(** ** [github.com/pkg/errors] *)

Module errors.

(** An error is a message ([errors.New], [errors.Errorf]) that callers may
    annotate on the way up ([errors.WithMessage], [errors.WithMessagef]). *)
Inductive error : Type :=
  | New (message : string)
  | WithMessage (cause : error) (message : string).

(** [err.Error()]: the annotations, outermost first, then the cause. *)
Fixpoint Error (e : error) : string :=
  match e with
  | New message => message
  | WithMessage cause message => message +:+ ": " +:+ Error cause
  end.

(** A Go result pair [(v, err)]: [Ok v] when [err == nil]. *)
Inductive Result (A : Type) : Type :=
  | Ok (v : A)
  | Err (err : error).
Global Arguments Ok {A} v.
Global Arguments Err {A} err.

Definition is_Ok {A : Type} (r : Result A) : Prop :=
  match r with Ok _ => True | Err _ => False end.

End errors.
Export errors (error, Result, Ok, Err).

(** ** [net/url]: the part of a [url.URL] that the set-up touches *)

Module url.

Record URL : Type := mkURL {
  Scheme : string;
  Host : string;
  Path : string }.

Definition with_Path (u : URL) (p : string) : URL :=
  {| Scheme := Scheme u; Host := Host u; Path := p |}.

End url.

(** ** [cmd/wg-portal/common]: the configuration *)

Module common.

(** Modelled from the spec: the configuration structs are declared in
    package [common], in another file.  Spec 6 lists what the handler
    consumes: the external base URL, the session secret and the three lists
    of provider configurations, each entry with a provider name or a URL.
    The field names are the ones [handler.go] reads. *)

Record OpenIDConnectProvider : Type := { oidc_ProviderName : string }.
Record OAuthProvider : Type := { oauth_ProviderName : string }.
Record LdapProvider : Type := { URL : string }.

Record Config : Type := {
  ExternalUrl : string;                         (* Core.ExternalUrl *)
  SessionSecret : string;                       (* Core.SessionSecret *)
  OpenIDConnect : list OpenIDConnectProvider;   (* Auth.OpenIDConnect *)
  OAuth : list OAuthProvider;                   (* Auth.OAuth *)
  Ldap : list LdapProvider }.                   (* Auth.Ldap *)

End common.

(** ** The collaborators outside the package

    The Go standard library ([strings.ToLower], [url.Parse], [path.Join],
    [URL.String]) and the constructors of [internal/authentication] are not
    part of the handler; everything below holds for all of them.  Following
    spec 6, a constructor takes a context, the callback URL (not for LDAP)
    and the provider configuration and returns an authenticator or an
    error.  The [context.Context] only carries the ten second deadline of
    [NewHandler]; a constructor that runs into it returns an error like any
    other failure. *)

Class Collaborators : Type := {
  ToLower : string → string;
  url_Parse : string → Result url.URL;
  url_String : url.URL → string;
  path_Join : list string → string;
  Authenticator : Type;
  LdapAuthenticator : Type;
  NewOidcAuthenticator : string → common.OpenIDConnectProvider → Result Authenticator;
  NewPlainOauthAuthenticator : string → common.OAuthProvider → Result Authenticator;
  NewLdapAuthenticator : common.LdapProvider → Result LdapAuthenticator }.

(** ** [github.com/gin-gonic/gin]: the request context and the handler chain

    [Keys] is the per-request storage of the context, where the session
    middleware keeps the session; its type is left open.  [trace] is not a
    field of gin's context: it records the positions of the handlers that the
    chain loop has called, so that being reached can be stated. *)

Module gin.

Record Request : Type := {
  Method : string;              (* c.Request.Method *)
  RequestURI : string;          (* c.Request.RequestURI *)
  URL : url.URL;                (* c.Request.URL *)
  SessionToken : string }.      (* the session cookie sent by the client *)

(** The response writer: [written] is [Written()], that is, the status line
    and the headers are out. *)
Record ResponseWriter : Type := {
  status : Z;
  written : bool;
  Location : option string;
  body : string }.

Definition defaultStatus : Z := 200.

Definition fresh : ResponseWriter :=
  {| status := defaultStatus; written := false; Location := None; body := "" |}.

Record Context (K : Type) : Type := {
  Request_ : Request;
  Writer : ResponseWriter;
  index : Z;                    (* int8 *)
  Keys : K;
  trace : list nat }.
Global Arguments Request_ {K} c.
Global Arguments Writer {K} c.
Global Arguments index {K} c.
Global Arguments Keys {K} c.
Global Arguments trace {K} c.

(** [math.MaxInt8 >> 1] *)
Definition abortIndex : Z := 63.

(** Conversion to [int8]. *)
Definition int8 (z : Z) : Z := (z + 128) mod 256 - 128.

Section Context_.
Context {K : Type}.

Definition with_Writer (c : Context K) (w : ResponseWriter) : Context K :=
  {| Request_ := Request_ c; Writer := w; index := index c; Keys := Keys c;
     trace := trace c |}.

Definition with_index (c : Context K) (i : Z) : Context K :=
  {| Request_ := Request_ c; Writer := Writer c; index := i; Keys := Keys c;
     trace := trace c |}.

Definition with_Keys (c : Context K) (k : K) : Context K :=
  {| Request_ := Request_ c; Writer := Writer c; index := index c; Keys := k;
     trace := trace c |}.

Definition with_trace (c : Context K) (t : list nat) : Context K :=
  {| Request_ := Request_ c; Writer := Writer c; index := index c; Keys := Keys c;
     trace := t |}.

(** [c.Abort()] *)
Definition Abort (c : Context K) : Context K := with_index c abortIndex.

(** [c.IsAborted()] *)
Definition IsAborted (c : Context K) : bool := abortIndex <=? index c.

(** [responseWriter.WriteHeader]: a positive code replaces the status unless
    the header is already out. *)
Definition WriteHeader (code : Z) (w : ResponseWriter) : ResponseWriter :=
  if (0 <? code) && negb (status w =? code) && negb (written w)
  then {| status := code; written := written w; Location := Location w;
          body := body w |}
  else w.

(** [bodyAllowedForStatus]: no body for 1xx, 204 and 304. *)
Definition bodyAllowedForStatus (code : Z) : bool :=
  negb ((100 <=? code) && (code <=? 199)) && negb (code =? 204) && negb (code =? 304).

(** [c.String(code, format)] without values: set the status, then send the
    header and, where the status allows a body, the text. *)
Definition String_ (code : Z) (format : string) (c : Context K) : Context K :=
  let w := WriteHeader code (Writer c) in
  with_Writer c
    {| status := status w; written := true; Location := Location w;
       body := if bodyAllowedForStatus code then body w +:+ format else body w |}.

(** [c.Redirect(code, location)] with a redirect status: [http.Redirect]
    sets the [Location] header and writes the header with [code].  To a GET
    it also sends a short HTML note, which puts the header out; the text of
    that note is not kept in [body]. *)
Definition Redirect (code : Z) (location : string) (c : Context K) : Context K :=
  let w := WriteHeader code
             {| status := status (Writer c); written := written (Writer c);
                Location := Some location; body := body (Writer c) |} in
  with_Writer c
    {| status := status w;
       written := written w || String.eqb (Method (Request_ c)) "GET";
       Location := Location w; body := body w |}.

(** A [gin.HandlerFunc] is a [func(c *gin.Context)].  The chain is not stored
    in the embedded context, so a handler receives [c.Next] as its first
    argument.  [None] is a panic, or fuel that ran out. *)
Definition HandlerFunc : Type :=
  (Context K → option (Context K)) → Context K → option (Context K).

Definition step (c : Context K) : Context K := with_index c (int8 (index c + 1)).

Definition called (c : Context K) : Context K :=
  with_trace c (trace c ++ [Z.to_nat (index c)]).

(** The loop of [c.Next()]:
    [for c.index < int8(len(c.handlers)) { c.handlers[c.index](c); c.index++ }]. *)
Fixpoint loop (fuel : nat) (handlers : list HandlerFunc) (c : Context K)
  : option (Context K) :=
  match fuel with
  | O => None
  | S fuel' =>
    if index c <? int8 (Z.of_nat (length handlers)) then
      if index c <? 0 then None
      else
        match handlers !! Z.to_nat (index c) with
        | Some handler =>
          match handler (λ c0, loop fuel' handlers (step c0)) (called c) with
          | Some c' => loop fuel' handlers (step c')
          | None => None
          end
        | None => None
        end
    else Some c
  end.

(** [c.Next()]: [c.index++], then the loop. *)
Definition Next (fuel : nat) (handlers : list HandlerFunc) (c : Context K)
  : option (Context K) :=
  loop fuel handlers (step c).

(** [engine.ServeHTTP]: the context is reset ([index = -1], nothing written)
    and the chain of the matched route is started. *)
Definition ServeHTTP (fuel : nat) (handlers : list HandlerFunc) (r : Request) (k : K)
  : option (Context K) :=
  Next fuel handlers
    {| Request_ := r; Writer := fresh; index := -1; Keys := k; trace := [] |}.

(** A handler at the end of a chain: it reads the request and acts on the
    session storage and on the response; it neither aborts nor calls
    [c.Next]. *)
Definition final (f : Request → K → ResponseWriter → K * ResponseWriter) : HandlerFunc :=
  λ _ c, let r := f (Request_ c) (Keys c) (Writer c) in
         Some (with_Writer (with_Keys c r.1) r.2).

End Context_.
Global Arguments HandlerFunc K : clear implicits.

End gin.

(** ** [net/http]: status codes *)

Module http.

Definition StatusSeeOther : Z := 303.
Definition StatusUnauthorized : Z := 401.
Definition StatusNotFound : Z := 404.

End http.

(** ** [internal/persistence] and [internal/core] *)

Module persistence.

Definition UserIdentifier : Type := string.

End persistence.

Module core.

(** Modelled from the spec: the [core.Backend] interface is declared in
    another package.  Spec 6 gives the method the handler calls,
    [GetActiveUser(userIdentifier) -> (user, error)]; [User] is the type of
    the user record. *)
Record Backend (User : Type) : Type := {
  GetActiveUser : persistence.UserIdentifier → Result User }.
Global Arguments GetActiveUser {User} b id.

End core.

(** ** [github.com/utrack/gin-csrf] *)

Module csrf.

(** [csrf.Options], with the two fields that [RegisterRoutes] sets. *)
Record Options (K : Type) : Type := {
  Secret : string;
  ErrorFunc : gin.Context K → gin.Context K }.
Global Arguments Secret {K} o.
Global Arguments ErrorFunc {K} o.

(** [csrf.Middleware(options)]: a request that needs no token, or carries the
    right one, is handed on with [c.Next()]; for any other request the
    middleware calls [ErrorFunc] and returns.  How a request is checked
    against the secret and the session is left open: it is [verify]. *)
Definition Middleware {K : Type} (verify : string → gin.Request → K → bool)
    (options : Options K) : gin.HandlerFunc K :=
  λ next c,
    if verify (Secret options) (gin.Request_ c) (gin.Keys c) then next c
    else Some (ErrorFunc options c).

End csrf.

(** ** Package [ui] *)

Module ui.

(** Modelled from the spec: the [ErrorData] struct is declared in another
    file of the package; these are the four fields that [HandleError] sets
    (spec 3, the pending error payload: message, details, HTTP status code,
    originating path). *)
Record ErrorData : Type := {
  Message : string;
  Details : string;
  Code : Z;
  Path : string }.

(** Modelled from the spec: the [SessionData] struct is declared in another
    file of the package; spec 3 lists its fields: logged-in flag, user
    identifier, administrator flag, deep-link and an optional pending error
    payload (a pointer in the code, [None] for [nil]). *)
Record SessionData : Type := {
  LoggedIn : bool;
  IsAdmin : bool;
  UserIdentifier : persistence.UserIdentifier;
  DeepLink : string;
  Error : option ErrorData }.

(** The zero value of [SessionData]. *)
Definition zero : SessionData :=
  {| LoggedIn := false; IsAdmin := false; UserIdentifier := ""; DeepLink := "";
     Error := None |}.

Definition with_DeepLink (s : SessionData) (uri : string) : SessionData :=
  {| LoggedIn := LoggedIn s; IsAdmin := IsAdmin s;
     UserIdentifier := UserIdentifier s; DeepLink := uri; Error := Error s |}.

Definition with_Error (s : SessionData) (e : option ErrorData) : SessionData :=
  {| LoggedIn := LoggedIn s; IsAdmin := IsAdmin s;
     UserIdentifier := UserIdentifier s; DeepLink := DeepLink s; Error := e |}.

Definition with_Path (e : ErrorData) (p : string) : ErrorData :=
  {| Message := Message e; Details := Details e; Code := Code e; Path := p |}.

(** Modelled from the spec: the [SessionStore] interface is declared in
    another file of the package.  Spec 4.3 gives the three methods the
    handler calls: [GetData(c)] never fails, [SetData(c, data)] persists and
    [DestroyData(c)] clears.  An implementation works on the session storage
    [K] that the context carries, for the client that sent the request. *)
Record SessionStore (K : Type) : Type := {
  getData : gin.Request → K → SessionData;
  setData : gin.Request → SessionData → K → K;
  destroyData : gin.Request → K → K }.
Global Arguments getData {K} s r k.
Global Arguments setData {K} s r d k.
Global Arguments destroyData {K} s r k.

(** [store.GetData(c)], [store.SetData(c, data)], [store.DestroyData(c)] *)
Definition GetData {K} (store : SessionStore K) (c : gin.Context K) : SessionData :=
  getData store (gin.Request_ c) (gin.Keys c).

Definition SetData {K} (store : SessionStore K) (c : gin.Context K) (data : SessionData)
  : gin.Context K :=
  gin.with_Keys c (setData store (gin.Request_ c) data (gin.Keys c)).

Definition DestroyData {K} (store : SessionStore K) (c : gin.Context K) : gin.Context K :=
  gin.with_Keys c (destroyData store (gin.Request_ c) (gin.Keys c)).

(** Modelled from the spec: the contract of a session store (spec 4.3).  A
    request of the same client, that is, one with the same session token,
    reads what was last written, and reads the zero value once the session
    is destroyed. *)
Record SessionStoreContract {K} (store : SessionStore K) : Prop := {
  get_set : ∀ r r' data k,
    gin.SessionToken r = gin.SessionToken r' →
    getData store r' (setData store r data k) = data;
  get_destroy : ∀ r r' k,
    gin.SessionToken r = gin.SessionToken r' →
    getData store r' (destroyData store r k) = zero }.

(** Modelled from the spec: [GinSessionStore] is declared in another file of
    the package.  Following spec 4.3 it keeps one [SessionData] per client
    under its [sessionIdentifier], and a client without one reads the zero
    value. *)
Definition GinSessionStore (sessionIdentifier : string)
  : SessionStore (gmap (string * string) SessionData) :=
  {| getData := λ r k, default zero (k !! (gin.SessionToken r, sessionIdentifier));
     setData := λ r data k, <[(gin.SessionToken r, sessionIdentifier) := data]> k;
     destroyData := λ r k, delete (gin.SessionToken r, sessionIdentifier) k |}.

Section Handler.
Context `{Collaborators}.
Context {K User : Type}.

Record handler : Type := {
  config : common.Config;
  session : SessionStore K;
  backend : core.Backend User;
  oauthAuthenticators : gmap string Authenticator;
  ldapAuthenticators : gmap string LdapAuthenticator }.

Definition with_oauthAuthenticators (h : handler) (m : gmap string Authenticator) : handler :=
  {| config := config h; session := session h; backend := backend h;
     oauthAuthenticators := m; ldapAuthenticators := ldapAuthenticators h |}.

Definition with_ldapAuthenticators (h : handler) (m : gmap string LdapAuthenticator) : handler :=
  {| config := config h; session := session h; backend := backend h;
     oauthAuthenticators := oauthAuthenticators h; ldapAuthenticators := m |}.

(** [errors.Errorf("auth provider with name %s is already registerd", providerId)] *)
Definition already_registered (providerId : string) : error :=
  errors.New ("auth provider with name " +:+ providerId +:+ " is already registerd").

(** The redirect URL of a provider: a copy of the external URL whose path is
    joined with the callback path. *)
Definition redirectUrl (extUrl : url.URL) (providerId : string) : string :=
  url_String
    (url.with_Path extUrl
       (path_Join [url.Path extUrl; "/auth/login/"; providerId; "/callback"])).

(** The three loops of [setupAuthProviders].  Each returns the map as the
    loop left it and the error it returned with, if any. *)
Fixpoint setupOpenIDConnect (extUrl : url.URL) (providers : list common.OpenIDConnectProvider)
    (authenticators : gmap string Authenticator)
  : gmap string Authenticator * option error :=
  match providers with
  | [] => (authenticators, None)
  | providerCfg :: rest =>
    let providerId := ToLower (common.oidc_ProviderName providerCfg) in
    match authenticators !! providerId with
    | Some _ => (authenticators, Some (already_registered providerId))
    | None =>
      match NewOidcAuthenticator (redirectUrl extUrl providerId) providerCfg with
      | Err err =>
        (authenticators,
         Some (errors.WithMessage err
                 ("failed to setup oidc authentication provider "
                  +:+ common.oidc_ProviderName providerCfg)))
      | Ok authenticator =>
        setupOpenIDConnect extUrl rest (<[providerId := authenticator]> authenticators)
      end
    end
  end.

Fixpoint setupOAuth (extUrl : url.URL) (providers : list common.OAuthProvider)
    (authenticators : gmap string Authenticator)
  : gmap string Authenticator * option error :=
  match providers with
  | [] => (authenticators, None)
  | providerCfg :: rest =>
    let providerId := ToLower (common.oauth_ProviderName providerCfg) in
    match authenticators !! providerId with
    | Some _ => (authenticators, Some (already_registered providerId))
    | None =>
      match NewPlainOauthAuthenticator (redirectUrl extUrl providerId) providerCfg with
      | Err err =>
        (authenticators,
         Some (errors.WithMessage err
                 ("failed to setup oauth authentication provider " +:+ providerId)))
      | Ok authenticator =>
        setupOAuth extUrl rest (<[providerId := authenticator]> authenticators)
      end
    end
  end.

Fixpoint setupLdap (providers : list common.LdapProvider)
    (authenticators : gmap string LdapAuthenticator)
  : gmap string LdapAuthenticator * option error :=
  match providers with
  | [] => (authenticators, None)
  | providerCfg :: rest =>
    let providerId := ToLower (common.URL providerCfg) in
    match authenticators !! providerId with
    | Some _ => (authenticators, Some (already_registered providerId))
    | None =>
      match NewLdapAuthenticator providerCfg with
      | Err err =>
        (authenticators,
         Some (errors.WithMessage err
                 ("failed to setup ldap authentication provider " +:+ providerId)))
      | Ok authenticator =>
        setupLdap rest (<[providerId := authenticator]> authenticators)
      end
    end
  end.

(** [h.setupAuthProviders(ctx)]: the handler as the call left it, and the
    returned error ([None] for [nil]). *)
Definition setupAuthProviders (h : handler) : handler * option error :=
  match url_Parse (common.ExternalUrl (config h)) with
  | Err err => (h, Some (errors.WithMessage err "failed to parse external url"))
  | Ok extUrl =>
    let (m1, e1) :=
      setupOpenIDConnect extUrl (common.OpenIDConnect (config h)) (oauthAuthenticators h) in
    let h := with_oauthAuthenticators h m1 in
    match e1 with
    | Some err => (h, Some err)
    | None =>
      let (m2, e2) := setupOAuth extUrl (common.OAuth (config h)) (oauthAuthenticators h) in
      let h := with_oauthAuthenticators h m2 in
      match e2 with
      | Some err => (h, Some err)
      | None =>
        let (m3, e3) := setupLdap (common.Ldap (config h)) (ldapAuthenticators h) in
        let h := with_ldapAuthenticators h m3 in
        (h, e3)
      end
    end
  end.

(** [h.isUserStillValid(id)] *)
Definition isUserStillValid (h : handler) (id : persistence.UserIdentifier) : bool :=
  match core.GetActiveUser (backend h) id with
  | Err _ => false
  | Ok _ => true
  end.

(** [h.authenticationMiddleware(scope)] *)
Definition authenticationMiddleware (h : handler) (scope : string) : gin.HandlerFunc K :=
  λ Next c,
    let session_ := GetData (session h) c in
    if negb (LoggedIn session_) then
      let session_ := with_DeepLink session_ (gin.RequestURI (gin.Request_ c)) in
      let c := SetData (session h) c session_ in
      let c := gin.Abort c in
      Some (gin.Redirect http.StatusSeeOther "/auth/login" c)
    else if String.eqb scope "admin" && negb (IsAdmin session_) then
      let c := gin.Abort c in
      Some (gin.String_ http.StatusUnauthorized "unauthorized: not enough permissions" c)
    else if negb (String.eqb scope "") && negb (IsAdmin session_) then
      let c := gin.Abort c in
      Some (gin.String_ http.StatusUnauthorized "unauthorized: not enough permissions" c)
    else if negb (isUserStillValid h (UserIdentifier session_)) then
      let c := DestroyData (session h) c in
      let c := gin.Abort c in
      Some (gin.String_ http.StatusUnauthorized "unauthorized: session no longer available" c)
    else Next c.

(** [h.HandleError(c, code, err, details)].  [currentSession.Error] is the
    pointer assigned two lines earlier, so the write through it for a 404
    always finds an [ErrorData]. *)
Definition HandleError (h : handler) (c : gin.Context K) (code : Z) (err : error)
    (details : string) : gin.Context K :=
  let currentSession := GetData (session h) c in
  let currentSession :=
    with_Error currentSession
      (Some {| Message := errors.Error err; Details := details; Code := code;
               Path := url.Path (gin.URL (gin.Request_ c)) |}) in
  let currentSession :=
    if code =? http.StatusNotFound
    then with_Error currentSession ((λ e, with_Path e "/") <$> Error currentSession)
    else currentSession in
  let c := SetData (session h) c currentSession in
  gin.Redirect http.StatusSeeOther "/oops" c.

End Handler.
Global Arguments handler {_} K User.

(** [NewHandler(config, backend)]: [Err] stands for the pair [(nil, err)]. *)
Definition NewHandler `{Collaborators} {User : Type} (config : common.Config)
    (backend : core.Backend User)
  : Result (handler (gmap (string * string) SessionData) User) :=
  let h := {| config := config;
              backend := backend;
              session := GinSessionStore "wgPortalSession";
              oauthAuthenticators := ∅;
              ldapAuthenticators := ∅ |} in
  let (h, err) := setupAuthProviders h in
  match err with
  | Some err => Err (errors.WithMessage err "failed to setup authentication providers")
  | None => Ok h
  end.

(** What [RegisterRoutes] hands to gin. *)

Section Routes.
Context `{Collaborators}.
Context {K User : Type}.

(** The [ErrorFunc] of the CSRF middleware. *)
Definition csrfErrorFunc (c : gin.Context K) : gin.Context K :=
  let c := gin.String_ 400 "CSRF token mismatch" c in
  gin.Abort c.

(** [csrfMiddleware] *)
Definition csrfMiddleware (verify : string → gin.Request → K → bool) (h : handler K User)
  : gin.HandlerFunc K :=
  csrf.Middleware verify
    {| csrf.Secret := common.SessionSecret (config h);
       csrf.ErrorFunc := csrfErrorFunc |}.

(** The handler given to [g.NoRoute]. *)
Definition noRoute (h : handler K User) : gin.HandlerFunc K :=
  λ _ c,
    Some (HandleError h c http.StatusNotFound
            (errors.New "Oops... you have reached the end of the internet")
            ("Requested page " +:+ url.Path (gin.URL (gin.Request_ c)) +:+ " not found")).

(** The handlers of a route of the admin group.  [g.Group] copies the
    handlers of the engine, the two calls of [admin.Use] append the CSRF
    middleware and the authentication middleware with scope [admin], and
    [admin.GET] appends the handler of the page. *)
Definition adminRoute (verify : string → gin.Request → K → bool) (h : handler K User)
    (engineHandlers : list (gin.HandlerFunc K)) (page : gin.HandlerFunc K)
  : list (gin.HandlerFunc K) :=
  engineHandlers ++ [csrfMiddleware verify h; authenticationMiddleware h "admin"; page].

End Routes.

(** ** Vocabulary of the statements about the set-up *)

(** The three loops of [setupAuthProviders] have one shape: look the
    identifier up, construct, insert.  [registerAll] is that shape; the
    loops are shown to be instances of it (lemmas [setupOpenIDConnect_eq],
    [setupOAuth_eq], [setupLdap_eq]). *)
Fixpoint registerAll {Cfg V : Type} (key : Cfg → string) (build : Cfg → Result V)
    (failed : error → Cfg → error) (l : list Cfg) (m : gmap string V)
  : gmap string V * option error :=
  match l with
  | [] => (m, None)
  | cfg :: rest =>
    match m !! key cfg with
    | Some _ => (m, Some (already_registered (key cfg)))
    | None =>
      match build cfg with
      | Err err => (m, Some (failed err cfg))
      | Ok v => registerAll key build failed rest (<[key cfg := v]> m)
      end
    end
  end.

Abbreviation entry := (common.OpenIDConnectProvider + common.OAuthProvider)%type.

Section Vocabulary.
Context `{Collaborators}.

(** The OIDC entries followed by the OAuth entries, in the order in which
    the set-up visits them, and their configured names. *)
Definition entries (cfg : common.Config) : list entry :=
  (inl <$> common.OpenIDConnect cfg) ++ (inr <$> common.OAuth cfg).

Definition ProviderName (e : entry) : string :=
  match e with
  | inl p => common.oidc_ProviderName p
  | inr p => common.oauth_ProviderName p
  end.

Definition entry_key (e : entry) : string := ToLower (ProviderName e).

Definition entry_build (extUrl : url.URL) (e : entry) : Result Authenticator :=
  match e with
  | inl p => NewOidcAuthenticator (redirectUrl extUrl (entry_key e)) p
  | inr p => NewPlainOauthAuthenticator (redirectUrl extUrl (entry_key e)) p
  end.

Definition entry_failed (err : error) (e : entry) : error :=
  match e with
  | inl p =>
    errors.WithMessage err
      ("failed to setup oidc authentication provider " +:+ common.oidc_ProviderName p)
  | inr p =>
    errors.WithMessage err ("failed to setup oauth authentication provider " +:+ entry_key e)
  end.

Definition ldap_key (p : common.LdapProvider) : string := ToLower (common.URL p).

Definition ldap_failed (err : error) (p : common.LdapProvider) : error :=
  errors.WithMessage err ("failed to setup ldap authentication provider " +:+ ldap_key p).

(** Two strings are the same case-insensitive name when [strings.ToLower]
    maps them to the same string. *)
Definition same_name (a b : string) : Prop := ToLower a = ToLower b.

(** Two entries of [l], at different positions, with the same name. *)
Definition two_with_same_name (l : list string) (i j : nat) : Prop :=
  (i < j)%nat ∧ ∃ a b, l !! i = Some a ∧ l !! j = Some b ∧ same_name a b.

(** The error that [NewHandler] returns for a duplicate identifier. *)
Definition duplicate_provider_error (providerId : string) : error :=
  errors.WithMessage (already_registered providerId)
    "failed to setup authentication providers".

End Vocabulary.

(** ** Sample collaborators, configurations and requests

    Concrete values on which the statements below are run. *)

(** [strings.ToLower] on ASCII text. *)
Definition lower_ascii (a : Ascii.ascii) : Ascii.ascii :=
  let n := Ascii.N_of_ascii a in
  if ((65 <=? n) && (n <=? 90))%N then Ascii.ascii_of_N (n + 32) else a.

Fixpoint ToLowerASCII (s : string) : string :=
  match s with
  | EmptyString => EmptyString
  | String a s' => String (lower_ascii a) (ToLowerASCII s')
  end.

(** Identity providers that answer: every constructor succeeds.  An
    authenticator is represented by what it was constructed from. *)
Definition reachable : Collaborators :=
  {| ToLower := ToLowerASCII;
     url_Parse := λ rawURL, Ok (url.mkURL "https" rawURL "");
     url_String := λ u, url.Scheme u +:+ "://" +:+ url.Host u +:+ url.Path u;
     path_Join := λ elem, foldr String.append "" elem;
     Authenticator := string;
     LdapAuthenticator := string;
     NewOidcAuthenticator := λ redirect _, Ok redirect;
     NewPlainOauthAuthenticator := λ redirect _, Ok redirect;
     NewLdapAuthenticator := λ providerCfg, Ok (common.URL providerCfg) |}.

(** Identity providers that do not answer before the deadline of the
    set-up: every constructor returns an error. *)
Definition unreachable : Collaborators :=
  {| ToLower := ToLowerASCII;
     url_Parse := λ rawURL, Ok (url.mkURL "https" rawURL "");
     url_String := λ u, url.Scheme u +:+ "://" +:+ url.Host u +:+ url.Path u;
     path_Join := λ elem, foldr String.append "" elem;
     Authenticator := string;
     LdapAuthenticator := string;
     NewOidcAuthenticator := λ _ _, Err (errors.New "context deadline exceeded");
     NewPlainOauthAuthenticator := λ _ _, Err (errors.New "context deadline exceeded");
     NewLdapAuthenticator := λ _, Err (errors.New "context deadline exceeded") |}.

(** A backend that knows one user, [admin@example.org]. *)
Definition one_user : core.Backend unit :=
  {| core.GetActiveUser := λ id,
       if String.eqb id "admin@example.org" then Ok ()
       else Err (errors.New "no such active user") |}.

(** Two OIDC entries whose names differ in case only. *)
Definition twice_google : common.Config :=
  {| common.ExternalUrl := "vpn.example.org";
     common.SessionSecret := "secret";
     common.OpenIDConnect := [ {| common.oidc_ProviderName := "Google" |};
                               {| common.oidc_ProviderName := "google" |} ];
     common.OAuth := [];
     common.Ldap := [] |}.

(** Two LDAP entries whose URLs differ in case only. *)
Definition twice_ldap : common.Config :=
  {| common.ExternalUrl := "vpn.example.org";
     common.SessionSecret := "secret";
     common.OpenIDConnect := [];
     common.OAuth := [];
     common.Ldap := [ {| common.URL := "ldap://DC.example.org" |};
                      {| common.URL := "ldap://dc.example.org" |} ] |}.

(** An OIDC entry and an LDAP entry with literally the same identifier. *)
Definition same_literal : common.Config :=
  {| common.ExternalUrl := "vpn.example.org";
     common.SessionSecret := "secret";
     common.OpenIDConnect := [ {| common.oidc_ProviderName := "ldap://dc.example.org" |} ];
     common.OAuth := [];
     common.Ldap := [ {| common.URL := "ldap://dc.example.org" |} ] |}.

(** ** Vocabulary of the statements about the middleware *)

(** The chain [handlers] is about to call [middleware] on [c]: the index of
    the context points at it, and the chain is shorter than [abortIndex]
    (gin refuses longer ones when routes are registered). *)
Definition guarded {K : Type} (handlers : list (gin.HandlerFunc K)) (c : gin.Context K)
    (middleware : gin.HandlerFunc K) : Prop :=
  0 ≤ gin.index c
  ∧ handlers !! Z.to_nat (gin.index c) = Some middleware
  ∧ Z.of_nat (length handlers) < gin.abortIndex.

(** The position of the handler the chain is about to call. *)
Definition position {K : Type} (c : gin.Context K) : nat := Z.to_nat (gin.index c).

(** The error payload that the reporter has to leave in the session: the
    path is the site root for a 404 and the path of the request otherwise. *)
Definition reported {K : Type} (c : gin.Context K) (code : Z) (err : error)
    (details : string) : ErrorData :=
  {| Message := errors.Error err;
     Details := details;
     Code := code;
     Path := if code =? http.StatusNotFound then "/"
             else url.Path (gin.URL (gin.Request_ c)) |}.

(** A handler of the sample portal and three clients: an administrator whose
    account is active, a plain user, and an administrator whose account is
    gone from the backend. *)
Definition portal : handler (H := reachable) (gmap (string * string) SessionData) unit :=
  {| config := same_literal;
     session := GinSessionStore "wgPortalSession";
     backend := one_user;
     oauthAuthenticators := ∅;
     ldapAuthenticators := ∅ |}.

Definition logged_in (admin : bool) (id : string) : SessionData :=
  {| LoggedIn := true; IsAdmin := admin; UserIdentifier := id; DeepLink := "";
     Error := None |}.

Definition sessions : gmap (string * string) SessionData :=
  <[("alice", "wgPortalSession") := logged_in true "admin@example.org"]>
    (<[("bob", "wgPortalSession") := logged_in false "bob@example.org"]>
       (<[("carol", "wgPortalSession") := logged_in true "carol@example.org"]> ∅)).

Definition request (token uri : string) : gin.Request :=
  {| gin.Method := "GET";
     gin.RequestURI := uri;
     gin.URL := url.mkURL "" "" uri;
     gin.SessionToken := token |}.

(** The context as [ServeHTTP] hands it to the first handler of a chain. *)
Definition arriving (r : gin.Request) : gin.Context (gmap (string * string) SessionData) :=
  {| gin.Request_ := r; gin.Writer := gin.fresh; gin.index := 0; gin.Keys := sessions;
     gin.trace := [] |}.

(** A protected page, and the chain of a route that a scope guards. *)
Definition page : gin.HandlerFunc (gmap (string * string) SessionData) :=
  gin.final (λ _ k w, (k, {| gin.status := 200; gin.written := true;
                             gin.Location := gin.Location w;
                             gin.body := gin.body w +:+ "users" |})).

Definition route (scope : string)
  : list (gin.HandlerFunc (gmap (string * string) SessionData)) :=
  [authenticationMiddleware portal scope; page].

(** When the middleware hands a request on: the session is logged in, the
    scope is empty or the session is an administrator's, and the user is
    still valid. *)
Definition admitted `{Collaborators} {K User : Type} (h : handler K User) (scope : string)
    (c : gin.Context K) : Prop :=
  LoggedIn (GetData (session h) c) = true
  ∧ (scope = "" ∨ IsAdmin (GetData (session h) c) = true)
  ∧ isUserStillValid h (UserIdentifier (GetData (session h) c)) = true.

(** A handler whose registry already holds an authenticator. *)
Definition half_set_up : handler (H := reachable) (gmap (string * string) SessionData) unit :=
  {| config := twice_google;
     session := GinSessionStore "wgPortalSession";
     backend := one_user;
     oauthAuthenticators := {[ "github" := "kept" ]};
     ldapAuthenticators := ∅ |}.

(** One provider of each family. *)
Definition two_families : common.Config :=
  {| common.ExternalUrl := "vpn.example.org";
     common.SessionSecret := "secret";
     common.OpenIDConnect := [ {| common.oidc_ProviderName := "Google" |} ];
     common.OAuth := [ {| common.oauth_ProviderName := "GitHub" |} ];
     common.Ldap := [ {| common.URL := "ldap://dc.example.org" |} ] |}.



(** A check that lets every GET through and nothing else. *)
Definition only_get (secret : string) (r : gin.Request)
    (k : gmap (string * string) SessionData) : bool :=
  String.eqb (gin.Method r) "GET".

Definition post (token uri : string) : gin.Request :=
  {| gin.Method := "POST";
     gin.RequestURI := uri;
     gin.URL := url.mkURL "" "" uri;
     gin.SessionToken := token |}.

(** ** The set-up of the registry *)

Section Register.
Context {Cfg V : Type}.
Variables (key : Cfg → string) (build : Cfg → Result V) (failed : error → Cfg → error).

Lemma registerAll_app (l1 l2 : list Cfg) (m : gmap string V) :
  registerAll key build failed (l1 ++ l2) m =
  match registerAll key build failed l1 m with
  | (m1, Some err) => (m1, Some err)
  | (m1, None) => registerAll key build failed l2 m1
  end.
Proof.
  revert m. induction l1 as [|c l1 IH]; intros m; simpl; [done|].
  destruct (m !! key c); [done|]. destruct (build c); [apply IH|done].
Qed.

(** A run without error: every identifier was free and new, every
    construction succeeded, and the map gained exactly these identifiers. *)
Lemma registerAll_None (l : list Cfg) (m m' : gmap string V) :
  registerAll key build failed l m = (m', None) →
  NoDup (key <$> l)
  ∧ Forall (λ c, m !! key c = None ∧ errors.is_Ok (build c)) l
  ∧ (∀ k, is_Some (m' !! k) ↔ is_Some (m !! k) ∨ k ∈ key <$> l).
Proof.
  revert m. induction l as [|c l IH]; intros m; simpl.
  - intros [= <-]. split; [constructor|]. split; [constructor|].
    intros k. rewrite elem_of_nil. tauto.
  - destruct (m !! key c) eqn:Hm; [done|].
    destruct (build c) as [v|] eqn:Hb; [|done].
    intros Hrun. destruct (IH _ Hrun) as (Hnd & Hall & Hdom).
    assert (Hfresh : key c ∉ key <$> l).
    { intros Hin. apply list_elem_of_fmap in Hin as (c' & Hk & Hc').
      rewrite Forall_forall in Hall. destruct (Hall _ Hc') as [Hnone _].
      rewrite <- Hk, lookup_insert_eq in Hnone. done. }
    split; [by constructor|]. split.
    + constructor; [by rewrite Hb|].
      eapply Forall_impl; [exact Hall|]. intros c' [Hnone Hok]. split; [|done].
      destruct (decide (key c = key c')) as [Heq|Hne].
      * rewrite <- Heq, lookup_insert_eq in Hnone. done.
      * by rewrite lookup_insert_ne in Hnone.
    + intros k. rewrite Hdom, elem_of_cons.
      destruct (decide (key c = k)) as [<-|Hne].
      * rewrite lookup_insert_eq. split; [intros _; right; by left | intros _; eauto].
      * rewrite lookup_insert_ne by done. intuition congruence.
Qed.

(** An entry whose identifier is taken, reached after constructions that all
    succeed: the run ends with the already-registered error for the first
    identifier found taken. *)
Lemma registerAll_taken (l1 : list Cfg) (c : Cfg) (l2 : list Cfg) (m : gmap string V) :
  Forall (λ c, errors.is_Ok (build c)) l1 →
  is_Some (m !! key c) ∨ key c ∈ key <$> l1 →
  ∃ m' id, id ∈ key <$> (l1 ++ c :: l2)
    ∧ registerAll key build failed (l1 ++ c :: l2) m = (m', Some (already_registered id)).
Proof.
  revert m. induction l1 as [|a l1 IH]; intros m Hok Htaken; simpl.
  - destruct Htaken as [[v Hv]|Hin]; [|by apply elem_of_nil in Hin].
    rewrite Hv. exists m, (key c). split; [by left|done].
  - destruct (m !! key a) eqn:Hm.
    { exists m, (key a). split; [by left|done]. }
    inversion Hok as [|? ? Ha Hok']; subst.
    destruct (build a) as [v|]; [|done].
    destruct (IH (<[key a := v]> m) Hok') as (m' & id & Hid & Hrun).
    + destruct Htaken as [[w Hw]|Hin].
      * left. destruct (decide (key a = key c)) as [->|Hne].
        -- rewrite lookup_insert_eq. eauto.
        -- rewrite lookup_insert_ne by done. eauto.
      * apply elem_of_cons in Hin as [Heq|Hin]; [|by right].
        left. rewrite Heq, lookup_insert_eq. eauto.
    + exists m', id. split; [by right|done].
Qed.

(** Two entries with the same identifier: the run always ends with an
    error. *)
Lemma registerAll_duplicate (l : list Cfg) (m : gmap string V) (i j : nat) (k : string) :
  (i < j)%nat → (key <$> l) !! i = Some k → (key <$> l) !! j = Some k →
  ∃ m' err, registerAll key build failed l m = (m', Some err).
Proof.
  intros Hij Hi Hj.
  destruct (registerAll key build failed l m) as [m' [err|]] eqn:Hrun; [eauto|].
  apply registerAll_None in Hrun as (Hnd & _).
  pose proof (NoDup_lookup _ _ _ _ Hnd Hi Hj). lia.
Qed.

(** Fresh, pairwise different identifiers and constructions that succeed:
    the run registers every entry and touches nothing else. *)
Lemma registerAll_ok (l : list Cfg) (m : gmap string V) :
  NoDup (key <$> l) →
  Forall (λ c, m !! key c = None ∧ errors.is_Ok (build c)) l →
  ∃ m', registerAll key build failed l m = (m', None)
    ∧ (∀ k, is_Some (m' !! k) ↔ is_Some (m !! k) ∨ k ∈ key <$> l).
Proof.
  revert m. induction l as [|c l IH]; intros m Hnd Hall; simpl.
  - exists m. split; [done|]. intros k. rewrite elem_of_nil. tauto.
  - apply NoDup_cons in Hnd as [Hfresh Hnd].
    inversion Hall as [|? ? [Hnone Hok] Hall']; subst.
    rewrite Hnone. destruct (build c) as [v|]; [|done].
    destruct (IH (<[key c := v]> m) Hnd) as (m' & Hrun & Hdom).
    + rewrite Forall_forall in Hall'. apply Forall_forall. intros c' Hc'.
      destruct (Hall' _ Hc') as [Hn Ho]. split; [|done].
      rewrite lookup_insert_ne; [done|].
      intros Heq. apply Hfresh. rewrite Heq. by apply list_elem_of_fmap_2.
    + exists m'. split; [done|]. intros k. rewrite Hdom, elem_of_cons.
      destruct (decide (key c = k)) as [<-|Hne].
      * rewrite lookup_insert_eq. split; [intros _; right; by left | intros _; eauto].
      * rewrite lookup_insert_ne by done. intuition congruence.
Qed.

End Register.

Section Setup.
Context `{Collaborators}.
Context {User : Type}.

Lemma setupOpenIDConnect_eq extUrl (l : list common.OpenIDConnectProvider)
    (m : gmap string Authenticator) :
  setupOpenIDConnect extUrl l m =
  registerAll entry_key (entry_build extUrl) entry_failed (inl <$> l) m.
Proof.
  revert m. induction l as [|p l IH]; intros m; simpl; [done|].
  unfold entry_key at 1; simpl. destruct (m !! _); [done|].
  unfold entry_key at 1; simpl. destruct (NewOidcAuthenticator _ _); [|done].
  rewrite IH. done.
Qed.

Lemma setupOAuth_eq extUrl (l : list common.OAuthProvider) (m : gmap string Authenticator) :
  setupOAuth extUrl l m =
  registerAll entry_key (entry_build extUrl) entry_failed (inr <$> l) m.
Proof.
  revert m. induction l as [|p l IH]; intros m; simpl; [done|].
  unfold entry_key at 1; simpl. destruct (m !! _); [done|].
  unfold entry_key at 1; simpl. destruct (NewPlainOauthAuthenticator _ _); [|done].
  rewrite IH. done.
Qed.

Lemma setupLdap_eq (l : list common.LdapProvider) (m : gmap string LdapAuthenticator) :
  setupLdap l m = registerAll ldap_key NewLdapAuthenticator ldap_failed l m.
Proof.
  revert m. induction l as [|p l IH]; intros m; simpl; [done|].
  unfold ldap_key at 1. destruct (m !! _); [done|].
  destruct (NewLdapAuthenticator p); [|done].
  rewrite IH. done.
Qed.

(** [NewHandler], with the three loops read as two runs of [registerAll]:
    one over the OIDC and OAuth entries, which share a map, and one over the
    LDAP entries. *)
Lemma NewHandler_eq (cfg : common.Config) (backend : core.Backend User) :
  NewHandler cfg backend =
  match url_Parse (common.ExternalUrl cfg) with
  | Err err =>
    Err (errors.WithMessage (errors.WithMessage err "failed to parse external url")
           "failed to setup authentication providers")
  | Ok extUrl =>
    match registerAll entry_key (entry_build extUrl) entry_failed (entries cfg) ∅ with
    | (_, Some err) => Err (errors.WithMessage err "failed to setup authentication providers")
    | (m, None) =>
      match registerAll ldap_key NewLdapAuthenticator ldap_failed (common.Ldap cfg) ∅ with
      | (_, Some err) =>
        Err (errors.WithMessage err "failed to setup authentication providers")
      | (m', None) =>
        Ok {| config := cfg; session := GinSessionStore "wgPortalSession";
              backend := backend; oauthAuthenticators := m; ldapAuthenticators := m' |}
      end
    end
  end.
Proof.
  unfold NewHandler, setupAuthProviders, entries; simpl.
  destruct (url_Parse _) as [extUrl|err]; [|done].
  rewrite (setupOpenIDConnect_eq extUrl).
  rewrite (registerAll_app _ _ _ (inl <$> common.OpenIDConnect cfg) (inr <$> common.OAuth cfg)).
  destruct (registerAll _ _ _ (inl <$> _) _) as [m1 [e1|]]; simpl; [done|].
  rewrite (setupOAuth_eq extUrl).
  destruct (registerAll _ _ _ (inr <$> _) _) as [m2 [e2|]]; simpl; [done|].
  rewrite setupLdap_eq.
  destruct (registerAll _ _ _ _ _) as [m3 [e3|]]; simpl; done.
Qed.

Lemma two_with_same_name_keys {A : Type} (name : A → string) (l : list A) (i j : nat) :
  two_with_same_name (name <$> l) i j →
  (i < j)%nat ∧ ∃ k, ((ToLower ∘ name) <$> l) !! i = Some k
                    ∧ ((ToLower ∘ name) <$> l) !! j = Some k.
Proof.
  intros (Hij & a & b & Ha & Hb & Hab). split; [done|].
  exists (ToLower a). rewrite !list_lookup_fmap in *.
  destruct (l !! i) as [x|]; [|done]. destruct (l !! j) as [y|]; [|done].
  simpl in *. injection Ha as <-. injection Hb as <-. by rewrite Hab.
Qed.

(** The later of two entries with the same identifier splits the list: its
    identifier occurs among the entries before it. *)
Lemma split_at_duplicate {A : Type} (key : A → string) (l : list A) (i j : nat) (k : string) :
  (i < j)%nat → (key <$> l) !! i = Some k → (key <$> l) !! j = Some k →
  ∃ c, l = take j l ++ c :: drop (S j) l ∧ key c ∈ key <$> take j l.
Proof.
  intros Hij Hi Hj. rewrite list_lookup_fmap in Hj.
  destruct (l !! j) as [c|] eqn:Hc; [|done]. simpl in Hj. injection Hj as Hk.
  exists c. split; [by rewrite take_drop_middle|].
  rewrite Hk. apply list_elem_of_lookup. exists i.
  rewrite fmap_take, lookup_take_lt by done. done.
Qed.


(** C7, as amended.  The LDAP loop keys on the lower-cased URL and has a map
    of its own.  Two LDAP entries with the same case-insensitive URL make
    [NewHandler] return an error and no handler; the error is the
    duplicate-provider error when the external URL parses, the OIDC and OAuth
    entries are registered without error, and every LDAP authenticator
    constructed before the later of the two entries is reached is constructed
    successfully.  Identifiers of the two families never collide: when the
    lower-cased names are pairwise different, the lower-cased URLs are
    pairwise different and every construction succeeds, the set-up
    succeeds, whether or not a name equals a URL, and registers exactly the
    lower-cased names in one map and the lower-cased URLs in the other. *)
Theorem ldap_namespace (cfg : common.Config) (backend : core.Backend User) :
  (∀ i j,
     two_with_same_name (common.URL <$> common.Ldap cfg) i j →
     (∃ err, NewHandler cfg backend = Err err)
     ∧ (∀ extUrl,
          url_Parse (common.ExternalUrl cfg) = Ok extUrl →
          NoDup (entry_key <$> entries cfg) →
          Forall (λ e, errors.is_Ok (entry_build extUrl e)) (entries cfg) →
          Forall (λ p, errors.is_Ok (NewLdapAuthenticator p)) (take j (common.Ldap cfg)) →
          ∃ providerId,
            providerId ∈ ldap_key <$> common.Ldap cfg
            ∧ NewHandler cfg backend = Err (duplicate_provider_error providerId)))
  ∧ (∀ extUrl,
       url_Parse (common.ExternalUrl cfg) = Ok extUrl →
       NoDup (entry_key <$> entries cfg) →
       NoDup (ldap_key <$> common.Ldap cfg) →
       Forall (λ e, errors.is_Ok (entry_build extUrl e)) (entries cfg) →
       Forall (λ p, errors.is_Ok (NewLdapAuthenticator p)) (common.Ldap cfg) →
       ∃ h, NewHandler cfg backend = Ok h
         ∧ (∀ k, is_Some (oauthAuthenticators h !! k) ↔ k ∈ entry_key <$> entries cfg)
         ∧ (∀ k, is_Some (ldapAuthenticators h !! k) ↔ k ∈ ldap_key <$> common.Ldap cfg)).
Proof.
  assert (Hfresh : ∀ {A V : Type} (key : A → string) (P : A → Prop) (l : list A),
             Forall P l → Forall (λ c, (∅ : gmap string V) !! key c = None ∧ P c) l).
  { intros A V key P l Hl. eapply Forall_impl; [exact Hl|]. intros c Hc.
    split; [apply lookup_empty|done]. }
  assert (Hdom : ∀ {V : Type} (m : gmap string V) (l : list string),
             (∀ k, is_Some (m !! k) ↔ is_Some ((∅ : gmap string V) !! k) ∨ k ∈ l) →
             ∀ k, is_Some (m !! k) ↔ k ∈ l).
  { intros V m l Hm k. rewrite Hm, lookup_empty.
    split; [intros [[? [=]]|?]; done | by right]. }
  split.
  - intros i j Hdup. apply two_with_same_name_keys in Hdup as (Hij & k & Hi & Hj).
    change (ToLower ∘ common.URL) with ldap_key in Hi, Hj.
    rewrite NewHandler_eq. split.
    + destruct (url_Parse _) as [extUrl|err]; [|eauto].
      destruct (registerAll _ _ _ (entries cfg) _) as [m [err|]]; [eauto|].
      destruct (registerAll_duplicate ldap_key NewLdapAuthenticator ldap_failed
                  (common.Ldap cfg) ∅ i j k Hij Hi Hj) as (m' & err & ->).
      eauto.
    + intros extUrl -> Hnd Hok Hldap.
      destruct (registerAll_ok entry_key (entry_build extUrl) entry_failed
                  (entries cfg) ∅ Hnd (Hfresh _ _ _ _ _ Hok)) as (m & -> & _).
      destruct (split_at_duplicate ldap_key (common.Ldap cfg) i j k Hij Hi Hj)
        as (c & Hsplit & Hin).
      destruct (registerAll_taken ldap_key NewLdapAuthenticator ldap_failed
                  (take j (common.Ldap cfg)) c (drop (S j) (common.Ldap cfg)) ∅ Hldap
                  (or_intror Hin)) as (m' & providerId & Hid & Hrun).
      rewrite <- Hsplit in Hid, Hrun. rewrite Hrun. eauto.
  - intros extUrl Hurl Hnd Hnd' Hok Hok'. rewrite NewHandler_eq, Hurl.
    destruct (registerAll_ok entry_key (entry_build extUrl) entry_failed
                (entries cfg) ∅ Hnd (Hfresh _ _ _ _ _ Hok)) as (m & -> & Hm).
    destruct (registerAll_ok ldap_key NewLdapAuthenticator ldap_failed
                (common.Ldap cfg) ∅ Hnd' (Hfresh _ _ _ _ _ Hok')) as (m' & -> & Hm').
    eexists. split; [done|]. simpl. split; by apply Hdom.
Qed.

End Setup.



(** C7 as stated fails: with two LDAP entries whose URLs differ in case only
    and a directory that does not answer, [NewHandler] fails with the
    construction error of the first entry, which is not a duplicate-provider
    error. *)
Lemma duplicate_url_other_error :
  two_with_same_name (H := unreachable) (common.URL <$> common.Ldap twice_ldap) 0 1
  ∧ NewHandler (H := unreachable) twice_ldap one_user =
    Err (errors.WithMessage
           (errors.WithMessage (errors.New "context deadline exceeded")
              "failed to setup ldap authentication provider ldap://dc.example.org")
           "failed to setup authentication providers")
  ∧ ¬ ∃ providerId,
      NewHandler (H := unreachable) twice_ldap one_user =
      Err (duplicate_provider_error providerId).
Proof.
  split; [|split].
  - split; [lia|]. exists "ldap://DC.example.org", "ldap://dc.example.org".
    by repeat split.
  - reflexivity.
  - intros [providerId Heq]. vm_compute in Heq. discriminate Heq.
Qed.

Lemma ldap_namespace_witness :
  (∃ providerId,
     NewHandler (H := reachable) twice_ldap one_user =
     Err (duplicate_provider_error providerId))
  ∧ (∃ h, NewHandler (H := reachable) same_literal one_user = Ok h
       ∧ is_Some (oauthAuthenticators h !! "ldap://dc.example.org")
       ∧ is_Some (ldapAuthenticators h !! "ldap://dc.example.org")).
Proof.
  split.
  - assert (Hdup : two_with_same_name (H := reachable)
                     (common.URL <$> common.Ldap twice_ldap) 0 1).
    { split; [lia|]. exists "ldap://DC.example.org", "ldap://dc.example.org".
      by repeat split. }
    destruct (proj1 (ldap_namespace (H := reachable) twice_ldap one_user) 0%nat 1%nat Hdup)
      as [_ Herr].
    destruct (Herr (url.mkURL "https" "vpn.example.org" "")) as (providerId & _ & Heq);
      [reflexivity | constructor | constructor | repeat constructor |].
    exists providerId. exact Heq.
  - destruct (proj2 (ldap_namespace (H := reachable) same_literal one_user)
                (url.mkURL "https" "vpn.example.org" "")) as (h & Heq & Hoauth & Hldap);
      [reflexivity | | | repeat constructor | repeat constructor |].
    + apply NoDup_singleton.
    + apply NoDup_singleton.
    + exists h. split; [exact Heq|]. split.
      * apply Hoauth. simpl. left.
      * apply Hldap. simpl. left.
Defined.

(** ** The chain of handlers *)

Section Chain.
Context {K : Type}.
Implicit Types (c : gin.Context K) (handlers : list (gin.HandlerFunc K)).

Lemma int8_small (z : Z) : -128 ≤ z < 128 → gin.int8 z = z.
Proof.
  intros Hz. unfold gin.int8.
  rewrite Z.mod_small by lia. lia.
Qed.

Lemma loop_S (fuel : nat) handlers c :
  gin.loop (S fuel) handlers c =
  if gin.index c <? gin.int8 (Z.of_nat (length handlers)) then
    if gin.index c <? 0 then None
    else
      match handlers !! Z.to_nat (gin.index c) with
      | Some handler =>
        match handler (λ c0, gin.loop fuel handlers (gin.step c0)) (gin.called c) with
        | Some c' => gin.loop fuel handlers (gin.step c')
        | None => None
        end
      | None => None
      end
  else Some c.
Proof. reflexivity. Qed.

(** The loop calls the handler that the index points at. *)
Lemma loop_call (fuel : nat) handlers c (handler : gin.HandlerFunc K) :
  guarded handlers c handler →
  gin.loop (S fuel) handlers c =
  match handler (λ c0, gin.loop fuel handlers (gin.step c0)) (gin.called c) with
  | Some c' => gin.loop fuel handlers (gin.step c')
  | None => None
  end.
Proof.
  intros (Hpos & Hat & Hlen). unfold gin.abortIndex in Hlen.
  pose proof (lookup_lt_Some _ _ _ Hat) as Hlt.
  rewrite loop_S, int8_small by lia.
  destruct (Z.ltb_spec (gin.index c) (Z.of_nat (length handlers))); [|lia].
  destruct (Z.ltb_spec (gin.index c) 0); [lia|].
  unfold gin.HandlerFunc in *. by rewrite Hat.
Qed.

(** The loop stops once the index is past the chain. *)
Lemma loop_done (fuel : nat) handlers c :
  Z.of_nat (length handlers) < gin.abortIndex →
  Z.of_nat (length handlers) ≤ gin.index c →
  gin.loop (S fuel) handlers c = Some c.
Proof.
  unfold gin.abortIndex. intros Hlen Hpast.
  rewrite loop_S, int8_small by lia.
  destruct (Z.ltb_spec (gin.index c) (Z.of_nat (length handlers))); [lia|done].
Qed.

(** A handler that aborts ends the chain: the loop calls nothing after it. *)
Lemma loop_abort (fuel : nat) handlers c (handler : gin.HandlerFunc K) c' :
  guarded handlers c handler →
  (∀ next, handler next (gin.called c) = Some c') →
  gin.index c' = gin.abortIndex →
  gin.loop (S (S fuel)) handlers c = Some (gin.step c').
Proof.
  intros Hg Hrun Hidx. rewrite (loop_call _ _ _ _ Hg), Hrun.
  destruct Hg as (_ & _ & Hlen).
  apply loop_done; [done|]. simpl. rewrite Hidx.
  unfold gin.abortIndex in *. rewrite int8_small; lia.
Qed.

Lemma WriteHeader_status (code : Z) (w : gin.ResponseWriter) :
  0 < code → gin.written w = false →
  gin.status (gin.WriteHeader code w) = code.
Proof.
  intros Hcode Hw. unfold gin.WriteHeader. rewrite Hw.
  destruct (Z.ltb_spec 0 code); [|lia].
  destruct (Z.eqb_spec (gin.status w) code); simpl; done.
Qed.

Lemma WriteHeader_Location (code : Z) (w : gin.ResponseWriter) :
  gin.Location (gin.WriteHeader code w) = gin.Location w.
Proof. unfold gin.WriteHeader. by destruct (_ && _). Qed.

Lemma WriteHeader_body (code : Z) (w : gin.ResponseWriter) :
  gin.body (gin.WriteHeader code w) = gin.body w.
Proof. unfold gin.WriteHeader. by destruct (_ && _). Qed.

End Chain.

(** ** The authorization middleware *)

Section Middleware.
Context `{Collaborators}.
Context {K User : Type}.
Implicit Types (h : handler K User) (c : gin.Context K) (scope : string).

(** The four ways through [authenticationMiddleware]. *)
Lemma middleware_not_logged_in h scope next c :
  LoggedIn (GetData (session h) c) = false →
  authenticationMiddleware h scope next c =
  Some (gin.Redirect http.StatusSeeOther "/auth/login"
          (gin.Abort
             (SetData (session h) c
                (with_DeepLink (GetData (session h) c) (gin.RequestURI (gin.Request_ c)))))).
Proof. intros Hs. unfold authenticationMiddleware. by rewrite Hs. Qed.

Lemma middleware_scope h scope next c :
  LoggedIn (GetData (session h) c) = true →
  scope ≠ "" →
  IsAdmin (GetData (session h) c) = false →
  authenticationMiddleware h scope next c =
  Some (gin.String_ http.StatusUnauthorized "unauthorized: not enough permissions"
          (gin.Abort c)).
Proof.
  intros Hs Hscope Hadmin. unfold authenticationMiddleware. rewrite Hs, Hadmin. simpl.
  destruct (String.eqb scope "admin"); simpl; [done|].
  apply String.eqb_neq in Hscope. by rewrite Hscope.
Qed.

Lemma scope_passed h scope c :
  scope = "" ∨ IsAdmin (GetData (session h) c) = true →
  String.eqb scope "admin" && negb (IsAdmin (GetData (session h) c)) = false
  ∧ negb (String.eqb scope "") && negb (IsAdmin (GetData (session h) c)) = false.
Proof.
  intros [-> | ->]; [done|]. by rewrite !andb_false_r.
Qed.

Lemma middleware_invalid h scope next c :
  LoggedIn (GetData (session h) c) = true →
  scope = "" ∨ IsAdmin (GetData (session h) c) = true →
  isUserStillValid h (UserIdentifier (GetData (session h) c)) = false →
  authenticationMiddleware h scope next c =
  Some (gin.String_ http.StatusUnauthorized "unauthorized: session no longer available"
          (gin.Abort (DestroyData (session h) c))).
Proof.
  intros Hs Hscope Hvalid. destruct (scope_passed h scope c Hscope) as [H1 H2].
  unfold authenticationMiddleware. by rewrite Hs, H1, H2, Hvalid.
Qed.

Lemma middleware_pass h scope next c :
  LoggedIn (GetData (session h) c) = true →
  scope = "" ∨ IsAdmin (GetData (session h) c) = true →
  isUserStillValid h (UserIdentifier (GetData (session h) c)) = true →
  authenticationMiddleware h scope next c = next c.
Proof.
  intros Hs Hscope Hvalid. destruct (scope_passed h scope c Hscope) as [H1 H2].
  unfold authenticationMiddleware. by rewrite Hs, H1, H2, Hvalid.
Qed.

(** A request without a logged-in session, run through a guarded chain. *)
Lemma run_not_logged_in (fuel : nat) (handlers : list (gin.HandlerFunc K)) h scope c :
  guarded handlers c (authenticationMiddleware h scope) →
  gin.written (gin.Writer c) = false →
  LoggedIn (GetData (session h) c) = false →
  ∃ c', gin.loop (S (S fuel)) handlers c = Some c'
    ∧ gin.Request_ c' = gin.Request_ c
    ∧ gin.Keys c' =
      setData (session h) (gin.Request_ c)
        (with_DeepLink (GetData (session h) c) (gin.RequestURI (gin.Request_ c)))
        (gin.Keys c)
    ∧ gin.IsAborted c' = true
    ∧ gin.status (gin.Writer c') = http.StatusSeeOther
    ∧ gin.Location (gin.Writer c') = Some "/auth/login"
    ∧ gin.trace c' = gin.trace c ++ [position c].
Proof.
  intros Hg Hw Hs. eexists. split.
  - eapply loop_abort;
      [exact Hg | intros next; apply middleware_not_logged_in; exact Hs | reflexivity].
  - simpl. repeat split; try reflexivity.
    + by rewrite WriteHeader_status.
    + by rewrite WriteHeader_Location.
Qed.

(** C2.  A request to a guarded route whose session is not logged in: the
    middleware stores the session with the requested URI as its deep-link,
    aborts the chain and redirects to [/auth/login]; no handler after the
    middleware is called. *)
Theorem not_logged_in_redirects (fuel : nat) (handlers : list (gin.HandlerFunc K))
    h scope c :
  guarded handlers c (authenticationMiddleware h scope) →
  gin.written (gin.Writer c) = false →
  LoggedIn (GetData (session h) c) = false →
  ∃ c', gin.loop (S (S fuel)) handlers c = Some c'
    ∧ gin.Keys c' =
      setData (session h) (gin.Request_ c)
        (with_DeepLink (GetData (session h) c) (gin.RequestURI (gin.Request_ c)))
        (gin.Keys c)
    ∧ (SessionStoreContract (session h) →
       DeepLink (GetData (session h) c') = gin.RequestURI (gin.Request_ c))
    ∧ gin.IsAborted c' = true
    ∧ gin.status (gin.Writer c') = http.StatusSeeOther
    ∧ gin.Location (gin.Writer c') = Some "/auth/login"
    ∧ gin.trace c' = gin.trace c ++ [position c].
Proof.
  intros Hg Hw Hs.
  destruct (run_not_logged_in fuel handlers h scope c Hg Hw Hs)
    as (c' & Hrun & Hreq & Hkeys & Habort & Hstatus & Hloc & Htrace).
  exists c'. repeat split; try done.
  intros Hstore. unfold GetData at 1. rewrite Hreq, Hkeys.
  by rewrite (get_set _ Hstore).
Qed.

(** A logged-in session without the administrator flag, on a route with a
    non-empty scope. *)
Lemma run_scope (fuel : nat) (handlers : list (gin.HandlerFunc K)) h scope c :
  guarded handlers c (authenticationMiddleware h scope) →
  gin.written (gin.Writer c) = false →
  LoggedIn (GetData (session h) c) = true →
  scope ≠ "" →
  IsAdmin (GetData (session h) c) = false →
  ∃ c', gin.loop (S (S fuel)) handlers c = Some c'
    ∧ gin.Keys c' = gin.Keys c
    ∧ gin.Request_ c' = gin.Request_ c
    ∧ gin.IsAborted c' = true
    ∧ gin.status (gin.Writer c') = http.StatusUnauthorized
    ∧ gin.body (gin.Writer c') =
      gin.body (gin.Writer c) +:+ "unauthorized: not enough permissions"
    ∧ gin.Location (gin.Writer c') = gin.Location (gin.Writer c)
    ∧ gin.trace c' = gin.trace c ++ [position c].
Proof.
  intros Hg Hw Hs Hscope Hadmin. eexists. split.
  - eapply loop_abort;
      [exact Hg | intros next; apply middleware_scope; [exact Hs|exact Hscope|exact Hadmin]
      | reflexivity].
  - simpl. repeat split; try reflexivity.
    + by rewrite WriteHeader_status.
    + by rewrite WriteHeader_body.
    + by rewrite WriteHeader_Location.
Qed.

(** C3.  A request to a route guarded with scope [admin] whose session is
    logged in without the administrator flag: the middleware aborts and
    answers 401; it sets no [Location] header, and no handler after it is
    called. *)
Theorem admin_scope_unauthorized (fuel : nat) (handlers : list (gin.HandlerFunc K))
    h c :
  guarded handlers c (authenticationMiddleware h "admin") →
  gin.written (gin.Writer c) = false →
  LoggedIn (GetData (session h) c) = true →
  IsAdmin (GetData (session h) c) = false →
  ∃ c', gin.loop (S (S fuel)) handlers c = Some c'
    ∧ gin.IsAborted c' = true
    ∧ gin.status (gin.Writer c') = http.StatusUnauthorized
    ∧ gin.body (gin.Writer c') =
      gin.body (gin.Writer c) +:+ "unauthorized: not enough permissions"
    ∧ gin.Location (gin.Writer c') = gin.Location (gin.Writer c)
    ∧ gin.trace c' = gin.trace c ++ [position c].
Proof.
  intros Hg Hw Hs Hadmin.
  destruct (run_scope fuel handlers h "admin" c Hg Hw Hs) as (c' & Hc'); [done..|].
  exists c'. tauto.
Qed.

(** C4.  The same holds for every non-empty scope: a logged-in session
    without the administrator flag is answered 401, so every non-empty scope
    asks for an administrator. *)
Theorem any_scope_unauthorized (fuel : nat) (handlers : list (gin.HandlerFunc K))
    h scope c :
  scope ≠ "" →
  guarded handlers c (authenticationMiddleware h scope) →
  gin.written (gin.Writer c) = false →
  LoggedIn (GetData (session h) c) = true →
  IsAdmin (GetData (session h) c) = false →
  ∃ c', gin.loop (S (S fuel)) handlers c = Some c'
    ∧ gin.IsAborted c' = true
    ∧ gin.status (gin.Writer c') = http.StatusUnauthorized
    ∧ gin.body (gin.Writer c') =
      gin.body (gin.Writer c) +:+ "unauthorized: not enough permissions"
    ∧ gin.Location (gin.Writer c') = gin.Location (gin.Writer c)
    ∧ gin.trace c' = gin.trace c ++ [position c].
Proof.
  intros Hscope Hg Hw Hs Hadmin.
  destruct (run_scope fuel handlers h scope c Hg Hw Hs Hscope Hadmin) as (c' & Hc').
  exists c'. tauto.
Qed.

(** C1.  A logged-in session that passes the scope checks, and a backend
    whose [GetActiveUser] returns an error for its user: the middleware
    destroys the session, aborts the chain and answers 401 with the text
    [unauthorized: session no longer available].  With a session store that
    keeps its contract, a later request of the same client finds no logged-in
    session and is sent to the login page. *)
Theorem revalidation_failure (fuel : nat) (handlers : list (gin.HandlerFunc K))
    h scope c (err : error) :
  guarded handlers c (authenticationMiddleware h scope) →
  gin.written (gin.Writer c) = false →
  LoggedIn (GetData (session h) c) = true →
  scope = "" ∨ IsAdmin (GetData (session h) c) = true →
  core.GetActiveUser (backend h) (UserIdentifier (GetData (session h) c)) = Err err →
  ∃ c', gin.loop (S (S fuel)) handlers c = Some c'
    ∧ gin.Keys c' = destroyData (session h) (gin.Request_ c) (gin.Keys c)
    ∧ gin.IsAborted c' = true
    ∧ gin.status (gin.Writer c') = http.StatusUnauthorized
    ∧ gin.body (gin.Writer c') =
      gin.body (gin.Writer c) +:+ "unauthorized: session no longer available"
    ∧ gin.Location (gin.Writer c') = gin.Location (gin.Writer c)
    ∧ gin.trace c' = gin.trace c ++ [position c]
    ∧ (SessionStoreContract (session h) →
       ∀ (fuel2 : nat) (handlers2 : list (gin.HandlerFunc K)) scope2 c2,
         guarded handlers2 c2 (authenticationMiddleware h scope2) →
         gin.written (gin.Writer c2) = false →
         gin.SessionToken (gin.Request_ c2) = gin.SessionToken (gin.Request_ c) →
         gin.Keys c2 = gin.Keys c' →
         LoggedIn (GetData (session h) c2) = false
         ∧ ∃ c2', gin.loop (S (S fuel2)) handlers2 c2 = Some c2'
             ∧ gin.IsAborted c2' = true
             ∧ gin.status (gin.Writer c2') = http.StatusSeeOther
             ∧ gin.Location (gin.Writer c2') = Some "/auth/login"
             ∧ gin.trace c2' = gin.trace c2 ++ [position c2]).
Proof.
  intros Hg Hw Hs Hscope Herr.
  assert (Hvalid : isUserStillValid h (UserIdentifier (GetData (session h) c)) = false).
  { unfold isUserStillValid. by rewrite Herr. }
  eexists. split.
  - eapply loop_abort;
      [exact Hg
      | intros next; apply middleware_invalid; [exact Hs|exact Hscope|exact Hvalid]
      | reflexivity].
  - simpl. split; [reflexivity|]. split; [reflexivity|].
    split; [by rewrite WriteHeader_status|]. split; [by rewrite WriteHeader_body|].
    split; [by rewrite WriteHeader_Location|]. split; [reflexivity|].
    intros Hstore fuel2 handlers2 scope2 c2 Hg2 Hw2 Htoken Hkeys.
    assert (Hout : LoggedIn (GetData (session h) c2) = false).
    { unfold GetData. rewrite Hkeys. simpl.
      by rewrite (get_destroy _ Hstore _ _ _ (eq_sym Htoken)). }
    split; [exact Hout|].
    destruct (run_not_logged_in fuel2 handlers2 h scope2 c2 Hg2 Hw2 Hout)
      as (c2' & Hrun & _ & _ & Hrest).
      exists c2'. split; [exact Hrun|exact Hrest].
Qed.

(** C6.  A logged-in administrator session whose user the backend reports
    active, on a chain that ends with the middleware followed by the
    protected handler: the middleware hands the request on unchanged, and the
    protected handler is called once, after the middleware and only then. *)
Theorem active_administrator_passes (fuel : nat) (handlers : list (gin.HandlerFunc K))
    h scope c (user : User)
    (protected : gin.Request → K → gin.ResponseWriter → K * gin.ResponseWriter) :
  guarded handlers c (authenticationMiddleware h scope) →
  handlers !! S (position c) = Some (gin.final protected) →
  length handlers = S (S (position c)) →
  LoggedIn (GetData (session h) c) = true →
  IsAdmin (GetData (session h) c) = true →
  core.GetActiveUser (backend h) (UserIdentifier (GetData (session h) c)) = Ok user →
  ∃ c', gin.loop (S (S (S fuel))) handlers c = Some c'
    ∧ gin.trace c' = gin.trace c ++ [position c; S (position c)]
    ∧ (gin.Keys c', gin.Writer c') = protected (gin.Request_ c) (gin.Keys c) (gin.Writer c).
Proof.
  intros Hg Hnext Hlen Hs Hadmin Huser.
  assert (Hvalid : isUserStillValid h (UserIdentifier (GetData (session h) c)) = true).
  { unfold isUserStillValid. by rewrite Huser. }
  pose proof Hg as (Hpos & Hat & Hshort). unfold gin.abortIndex in Hshort.
  unfold position in *.
  assert (Hstep : gin.int8 (gin.index c + 1) = gin.index c + 1).
  { apply int8_small. lia. }
  assert (Hg' : guarded handlers (gin.step (gin.called c)) (gin.final protected)).
  { unfold guarded, gin.abortIndex. simpl. rewrite Hstep.
    replace (Z.to_nat (gin.index c + 1)) with (S (Z.to_nat (gin.index c))) by lia.
    repeat split; [lia|done|lia]. }
  rewrite (loop_call _ _ _ _ Hg).
  rewrite (middleware_pass h scope _ (gin.called c) Hs (or_intror Hadmin) Hvalid).
  rewrite (loop_call _ _ _ _ Hg'). unfold gin.final. cbv beta iota zeta.
  assert (Hstep2 : gin.int8 (gin.index c + 1 + 1) = gin.index c + 2).
  { rewrite int8_small; lia. }
  assert (Hstep3 : gin.int8 (gin.index c + 2 + 1) = gin.index c + 3).
  { rewrite int8_small; lia. }
  rewrite loop_done;
    [|unfold gin.abortIndex; lia|simpl; rewrite Hstep, Hstep2; lia].
  rewrite loop_done;
    [|unfold gin.abortIndex; lia|simpl; rewrite Hstep, Hstep2, Hstep3; lia].
  eexists. split; [reflexivity|]. simpl. split.
  - rewrite Hstep, <- app_assoc. simpl.
    by replace (Z.to_nat (gin.index c + 1)) with (S (Z.to_nat (gin.index c))) by lia.
  - by destruct (protected _ _ _).
Qed.

(** C10.  Rejecting a logged-in request for insufficient scope leaves the
    session storage as it was, so the session and its deep-link are what
    they were.  Every call of the middleware is of one of four kinds: it
    hands the context on untouched, it rejects and leaves the storage as it
    was, it finds no logged-in session and calls [SetData], or revalidation
    fails and it calls [DestroyData]. *)
Theorem session_writes h scope (next : gin.Context K → option (gin.Context K)) c :
  (LoggedIn (GetData (session h) c) = true →
   scope ≠ "" →
   IsAdmin (GetData (session h) c) = false →
   ∃ c', authenticationMiddleware h scope next c = Some c'
     ∧ gin.Keys c' = gin.Keys c
     ∧ GetData (session h) c' = GetData (session h) c)
  ∧ (authenticationMiddleware h scope next c = next c
     ∨ (LoggedIn (GetData (session h) c) = true
        ∧ ∃ c', authenticationMiddleware h scope next c = Some c'
            ∧ gin.Keys c' = gin.Keys c)
     ∨ (LoggedIn (GetData (session h) c) = false
        ∧ ∃ c', authenticationMiddleware h scope next c = Some c'
            ∧ gin.Keys c' =
              setData (session h) (gin.Request_ c)
                (with_DeepLink (GetData (session h) c) (gin.RequestURI (gin.Request_ c)))
                (gin.Keys c))
     ∨ (LoggedIn (GetData (session h) c) = true
        ∧ isUserStillValid h (UserIdentifier (GetData (session h) c)) = false
        ∧ ∃ c', authenticationMiddleware h scope next c = Some c'
            ∧ gin.Keys c' = destroyData (session h) (gin.Request_ c) (gin.Keys c))).
Proof.
  split.
  - intros Hs Hscope Hadmin. rewrite (middleware_scope h scope next c Hs Hscope Hadmin).
    eexists. split; [reflexivity|]. done.
  - destruct (LoggedIn (GetData (session h) c)) eqn:Hs.
    + destruct (decide (scope = "")) as [Hscope|Hscope];
        [|destruct (IsAdmin (GetData (session h) c)) eqn:Hadmin].
      1,2: assert (Hpass : scope = "" ∨ IsAdmin (GetData (session h) c) = true)
             by (rewrite ?Hadmin; tauto);
           destruct (isUserStillValid h (UserIdentifier (GetData (session h) c))) eqn:Hv;
           [ left; by apply middleware_pass
           | right; right; right; split; [done|]; split; [done|];
             rewrite (middleware_invalid h scope next c Hs Hpass Hv);
             eexists; split; done ].
      right; left. split; [done|].
      rewrite (middleware_scope h scope next c Hs Hscope Hadmin).
      eexists. split; done.
    + right; right; left. split; [done|].
      rewrite (middleware_not_logged_in h scope next c Hs).
      eexists. split; done.
Qed.

End Middleware.

(** ** The error reporter *)

Section Reporter.
Context `{Collaborators}.
Context {K User : Type}.
Implicit Types (h : handler K User) (c : gin.Context K).

Lemma HandleError_eq h c (code : Z) (err : error) (details : string) :
  HandleError h c code err details =
  gin.Redirect http.StatusSeeOther "/oops"
    (SetData (session h) c
       (with_Error (GetData (session h) c) (Some (reported c code err details)))).
Proof.
  unfold HandleError, reported. by destruct (code =? http.StatusNotFound).
Qed.

(** C8.  [HandleError] replaces the error payload of the session by one with
    the message of the error, the details and the code, whose path is [/]
    for a 404 and the path of the request for every other code; it stores the
    session and redirects to [/oops]. *)
Theorem HandleError_reports h c (code : Z) (err : error) (details : string) :
  gin.Keys (HandleError h c code err details) =
  setData (session h) (gin.Request_ c)
    (with_Error (GetData (session h) c) (Some (reported c code err details)))
    (gin.Keys c)
  ∧ Message (reported c code err details) = errors.Error err
  ∧ Details (reported c code err details) = details
  ∧ Code (reported c code err details) = code
  ∧ (code = http.StatusNotFound → Path (reported c code err details) = "/")
  ∧ (code ≠ http.StatusNotFound →
     Path (reported c code err details) = url.Path (gin.URL (gin.Request_ c)))
  ∧ (SessionStoreContract (session h) →
     Error (GetData (session h) (HandleError h c code err details)) =
     Some (reported c code err details))
  ∧ gin.Location (gin.Writer (HandleError h c code err details)) = Some "/oops"
  ∧ (gin.written (gin.Writer c) = false →
     gin.status (gin.Writer (HandleError h c code err details)) = http.StatusSeeOther)
  ∧ gin.index (HandleError h c code err details) = gin.index c.
Proof.
  rewrite HandleError_eq. simpl.
  split; [reflexivity|]. split; [reflexivity|]. split; [reflexivity|].
  split; [reflexivity|]. split.
  { intros ->. reflexivity. }
  split.
  { intros Hcode. apply Z.eqb_neq in Hcode. by rewrite Hcode. }
  split.
  { intros Hstore. unfold GetData. simpl. by rewrite (get_set _ Hstore). }
  split.
  { by rewrite WriteHeader_Location. }
  split; [|reflexivity].
  intros Hw. by rewrite WriteHeader_status.
Qed.

(** C9.  With a session store that keeps its contract, the session after
    [HandleError] is the session before it with another error payload: the
    logged-in flag, the user identifier, the administrator flag and the
    deep-link are what they were. *)
Theorem HandleError_frame h c (code : Z) (err : error) (details : string) :
  SessionStoreContract (session h) →
  GetData (session h) (HandleError h c code err details) =
  with_Error (GetData (session h) c)
    (Error (GetData (session h) (HandleError h c code err details)))
  ∧ LoggedIn (GetData (session h) (HandleError h c code err details)) =
    LoggedIn (GetData (session h) c)
  ∧ UserIdentifier (GetData (session h) (HandleError h c code err details)) =
    UserIdentifier (GetData (session h) c)
  ∧ IsAdmin (GetData (session h) (HandleError h c code err details)) =
    IsAdmin (GetData (session h) c)
  ∧ DeepLink (GetData (session h) (HandleError h c code err details)) =
    DeepLink (GetData (session h) c).
Proof.
  intros Hstore. rewrite HandleError_eq.
  assert (Hget : GetData (session h)
                   (gin.Redirect http.StatusSeeOther "/oops"
                      (SetData (session h) c
                         (with_Error (GetData (session h) c)
                            (Some (reported c code err details))))) =
                 with_Error (GetData (session h) c) (Some (reported c code err details))).
  { unfold GetData. simpl. by rewrite (get_set _ Hstore). }
  rewrite Hget. done.
Qed.

End Reporter.

(** ** The statements on the sample portal *)

(** The store of [NewHandler] keeps the contract of a session store. *)
Lemma GinSessionStore_contract (sessionIdentifier : string) :
  SessionStoreContract (GinSessionStore sessionIdentifier).
Proof.
  split; simpl.
  - intros r r' data k <-. by rewrite lookup_insert_eq.
  - intros r r' k <-. by rewrite lookup_delete_eq.
Qed.

Lemma route_guarded (scope token uri : string) :
  guarded (route scope) (arriving (request token uri))
    (authenticationMiddleware portal scope).
Proof. split; [done|]. split; reflexivity. Qed.

(** [arriving r] is the context at the first handler of a served request. *)
Lemma ServeHTTP_arriving (fuel : nat) (scope : string) (r : gin.Request) :
  gin.ServeHTTP fuel (route scope) r sessions = gin.loop fuel (route scope) (arriving r).
Proof. reflexivity. Qed.

(** Carol is a logged-in administrator whose account is gone: her request is
    answered 401, and her next request is sent to the login page. *)
Lemma revalidation_failure_witness :
  ∃ c', gin.loop 2 (route "admin") (arriving (request "carol" "/admin/users")) = Some c'
    ∧ gin.status (gin.Writer c') = 401
    ∧ gin.body (gin.Writer c') = "unauthorized: session no longer available"
    ∧ gin.trace c' = [0%nat]
    ∧ ∃ c2', gin.loop 2 (route "admin")
               (gin.with_Keys (arriving (request "carol" "/admin/")) (gin.Keys c')) = Some c2'
        ∧ gin.Location (gin.Writer c2') = Some "/auth/login".
Proof.
  destruct (revalidation_failure (H := reachable) 0 (route "admin") portal "admin"
              (arriving (request "carol" "/admin/users"))
              (errors.New "no such active user")
              (route_guarded "admin" "carol" "/admin/users")
              eq_refl eq_refl (or_intror eq_refl) eq_refl)
    as (c' & Hrun & Hkeys & Habort & Hstatus & Hbody & Hloc & Htrace & Hnext).
  exists c'. split; [exact Hrun|]. split; [exact Hstatus|]. split; [exact Hbody|].
  split; [exact Htrace|].
  destruct (Hnext (GinSessionStore_contract "wgPortalSession") 0%nat (route "admin") "admin"
              (gin.with_Keys (arriving (request "carol" "/admin/")) (gin.Keys c')))
    as (_ & c2' & Hrun2 & _ & _ & Hloc2 & _).
  - split; [done|]. split; reflexivity.
  - reflexivity.
  - reflexivity.
  - reflexivity.
  - exists c2'. split; [exact Hrun2|exact Hloc2].
Defined.

(** Dave has no session: his request is redirected to the login page, and
    the session remembers where he wanted to go. *)
Lemma not_logged_in_redirects_witness :
  ∃ c', gin.loop 2 (route "admin") (arriving (request "dave" "/admin/users")) = Some c'
    ∧ DeepLink (GetData (session portal) c') = "/admin/users"
    ∧ gin.status (gin.Writer c') = 303
    ∧ gin.Location (gin.Writer c') = Some "/auth/login"
    ∧ gin.trace c' = [0%nat].
Proof.
  destruct (not_logged_in_redirects (H := reachable) 0 (route "admin") portal "admin"
              (arriving (request "dave" "/admin/users"))
              (route_guarded "admin" "dave" "/admin/users") eq_refl eq_refl)
    as (c' & Hrun & Hkeys & Hlink & Habort & Hstatus & Hloc & Htrace).
  exists c'. split; [exact Hrun|].
  split; [exact (Hlink (GinSessionStore_contract "wgPortalSession"))|].
  split; [exact Hstatus|]. split; [exact Hloc|exact Htrace].
Defined.

(** Bob is logged in without the administrator flag. *)
Lemma admin_scope_unauthorized_witness :
  ∃ c', gin.loop 2 (route "admin") (arriving (request "bob" "/admin/users")) = Some c'
    ∧ gin.status (gin.Writer c') = 401
    ∧ gin.Location (gin.Writer c') = None
    ∧ gin.trace c' = [0%nat].
Proof.
  destruct (admin_scope_unauthorized (H := reachable) 0 (route "admin") portal
              (arriving (request "bob" "/admin/users"))
              (route_guarded "admin" "bob" "/admin/users") eq_refl eq_refl eq_refl)
    as (c' & Hrun & Habort & Hstatus & Hbody & Hloc & Htrace).
  exists c'. split; [exact Hrun|]. split; [exact Hstatus|]. split; [exact Hloc|exact Htrace].
Defined.

Lemma any_scope_unauthorized_witness :
  ∃ c', gin.loop 2 (route "user") (arriving (request "bob" "/user/profile")) = Some c'
    ∧ gin.status (gin.Writer c') = 401
    ∧ gin.Location (gin.Writer c') = None
    ∧ gin.trace c' = [0%nat].
Proof.
  assert (Hscope : "user" ≠ "") by discriminate.
  destruct (any_scope_unauthorized (H := reachable) 0 (route "user") portal "user"
              (arriving (request "bob" "/user/profile")) Hscope
              (route_guarded "user" "bob" "/user/profile") eq_refl eq_refl eq_refl)
    as (c' & Hrun & Habort & Hstatus & Hbody & Hloc & Htrace).
  exists c'. split; [exact Hrun|]. split; [exact Hstatus|]. split; [exact Hloc|exact Htrace].
Defined.

(** Alice is a logged-in administrator whose account is active. *)
Lemma active_administrator_passes_witness :
  ∃ c', gin.loop 3 (route "admin") (arriving (request "alice" "/admin/users")) = Some c'
    ∧ gin.trace c' = [0%nat; 1%nat]
    ∧ gin.body (gin.Writer c') = "users".
Proof.
  destruct (active_administrator_passes (H := reachable) 0 (route "admin") portal "admin"
              (arriving (request "alice" "/admin/users")) ()
              (λ _ k w, (k, {| gin.status := 200; gin.written := true;
                               gin.Location := gin.Location w;
                               gin.body := gin.body w +:+ "users" |}))
              (route_guarded "admin" "alice" "/admin/users")
              eq_refl eq_refl eq_refl eq_refl eq_refl)
    as (c' & Hrun & Htrace & Hpage).
  exists c'. split; [exact Hrun|]. split; [exact Htrace|].
  exact (f_equal (λ p, gin.body p.2) Hpage).
Defined.

Lemma session_writes_witness :
  ∃ c', authenticationMiddleware portal "admin" Some
          (arriving (request "bob" "/admin/users")) = Some c'
    ∧ gin.Keys c' = sessions
    ∧ GetData (session portal) c' = logged_in false "bob@example.org".
Proof.
  assert (Hscope : "admin" ≠ "") by discriminate.
  destruct (proj1 (session_writes (H := reachable) portal "admin" Some
                     (arriving (request "bob" "/admin/users")))
              eq_refl Hscope eq_refl)
    as (c' & Hrun & Hkeys & Hget).
  exists c'. split; [exact Hrun|]. split; [exact Hkeys|]. exact Hget.
Defined.

Lemma HandleError_reports_witness :
  Error (GetData (session portal)
           (HandleError portal (arriving (request "bob" "/nowhere")) 404
              (errors.New "Oops... you have reached the end of the internet")
              "Requested page /nowhere not found")) =
  Some {| Message := "Oops... you have reached the end of the internet";
          Details := "Requested page /nowhere not found";
          Code := 404;
          Path := "/" |}
  ∧ gin.status (gin.Writer
                  (HandleError portal (arriving (request "bob" "/nowhere")) 404
                     (errors.New "Oops... you have reached the end of the internet")
                     "Requested page /nowhere not found")) = 303.
Proof.
  destruct (HandleError_reports (H := reachable) portal (arriving (request "bob" "/nowhere"))
              404 (errors.New "Oops... you have reached the end of the internet")
              "Requested page /nowhere not found")
    as (_ & _ & _ & _ & _ & _ & Hget & _ & Hstatus & _).
  split; [exact (Hget (GinSessionStore_contract "wgPortalSession"))|exact (Hstatus eq_refl)].
Defined.

Lemma HandleError_frame_witness :
  LoggedIn (GetData (session portal)
              (HandleError portal (arriving (request "bob" "/admin/users")) 500
                 (errors.New "boom") "details")) = true
  ∧ DeepLink (GetData (session portal)
                (HandleError portal (arriving (request "bob" "/admin/users")) 500
                   (errors.New "boom") "details")) = "".
Proof.
  destruct (HandleError_frame (H := reachable) portal
              (arriving (request "bob" "/admin/users")) 500 (errors.New "boom") "details"
              (GinSessionStore_contract "wgPortalSession"))
    as (_ & Hlogged & _ & _ & Hlink).
  split; [exact Hlogged|exact Hlink].
Defined.

(** ** More about the set-up of the registry *)

Section RegisterMore.
Context {Cfg V : Type}.
Variables (key : Cfg → string) (build : Cfg → Result V) (failed : error → Cfg → error).

(** A run only inserts at free identifiers: what was registered stays
    registered, with the same value, whether the run ends in an error or
    not. *)
Lemma registerAll_preserves (l : list Cfg) (m m' : gmap string V) (e : option error) :
  registerAll key build failed l m = (m', e) →
  ∀ k v, m !! k = Some v → m' !! k = Some v.
Proof.
  revert m. induction l as [|c l IH]; intros m; simpl.
  - intros [= <- _]. done.
  - destruct (m !! key c) eqn:Hm; [by intros [= <- _]|].
    destruct (build c) as [v|]; [|by intros [= <- _]].
    intros Hrun k w Hk. apply (IH _ Hrun).
    rewrite lookup_insert_ne; [done|]. intros <-. congruence.
Qed.

(** After a run without error every entry is found under its identifier,
    with the value that was constructed for it. *)
Lemma registerAll_values (l : list Cfg) (m m' : gmap string V) :
  registerAll key build failed l m = (m', None) →
  ∀ c, c ∈ l → ∃ v, build c = Ok v ∧ m' !! key c = Some v.
Proof.
  revert m. induction l as [|a l IH]; intros m; simpl.
  - intros _ c Hc. by apply elem_of_nil in Hc.
  - destruct (m !! key a) eqn:Hm; [done|].
    destruct (build a) as [v|] eqn:Hb; [|done].
    intros Hrun c Hc. apply elem_of_cons in Hc as [->|Hc].
    + exists v. split; [done|].
      apply (registerAll_preserves _ _ _ _ Hrun). apply lookup_insert_eq.
    + by apply (IH _ Hrun).
Qed.

(** The two errors of a run. *)
Lemma registerAll_error (l : list Cfg) (m m' : gmap string V) (err : error) :
  registerAll key build failed l m = (m', Some err) →
  (∃ c, c ∈ l ∧ err = already_registered (key c))
  ∨ (∃ c e, c ∈ l ∧ build c = Err e ∧ err = failed e c).
Proof.
  revert m. induction l as [|a l IH]; intros m; simpl; [done|].
  destruct (m !! key a) eqn:Hm.
  { intros [= _ <-]. left. exists a. split; [by left|done]. }
  destruct (build a) as [v|e] eqn:Hb.
  - intros Hrun. destruct (IH _ Hrun) as [(c & Hc & ->)|(c & e & Hc & Hbc & ->)].
    + left. exists c. split; [by right|done].
    + right. exists c, e. split; [by right|done].
  - intros [= _ <-]. right. exists a, e. split; [by left|done].
Qed.

(** The first entry whose construction fails, after entries with free,
    pairwise different identifiers that were all constructed. *)
Lemma registerAll_first_failure (l1 : list Cfg) (c : Cfg) (l2 : list Cfg)
    (m : gmap string V) (e : error) :
  NoDup (key <$> l1 ++ [c]) →
  Forall (λ c, m !! key c = None) (l1 ++ [c]) →
  Forall (λ c, errors.is_Ok (build c)) l1 →
  build c = Err e →
  ∃ m', registerAll key build failed (l1 ++ c :: l2) m = (m', Some (failed e c)).
Proof.
  revert m. induction l1 as [|a l1 IH]; intros m Hnd Hfree Hok Hc; simpl in *.
  - inversion Hfree as [|? ? Hm _]; subst. rewrite Hm, Hc. eauto.
  - apply NoDup_cons in Hnd as [Hnew Hnd].
    inversion Hfree as [|? ? Hm Hfree']; subst.
    inversion Hok as [|? ? Ha Hok']; subst.
    rewrite Hm. destruct (build a) as [v|]; [|done].
    apply IH; [done| |done|done].
    rewrite Forall_forall in Hfree'. apply Forall_forall. intros c' Hc'.
    rewrite lookup_insert_ne; [by apply Hfree'|].
    intros Heq. apply Hnew. rewrite Heq. by apply list_elem_of_fmap_2.
Qed.

End RegisterMore.

Section SetupMore.
Context `{Collaborators}.
Context {K User : Type}.
Implicit Types (h : handler K User) (cfg : common.Config).

(** [setupAuthProviders] on any handler, read as two runs of
    [registerAll] that start from the maps the handler has. *)
Lemma setupAuthProviders_eq h :
  setupAuthProviders h =
  match url_Parse (common.ExternalUrl (config h)) with
  | Err err => (h, Some (errors.WithMessage err "failed to parse external url"))
  | Ok extUrl =>
    match registerAll entry_key (entry_build extUrl) entry_failed (entries (config h))
            (oauthAuthenticators h) with
    | (m, Some err) => (with_oauthAuthenticators h m, Some err)
    | (m, None) =>
      match registerAll ldap_key NewLdapAuthenticator ldap_failed
              (common.Ldap (config h)) (ldapAuthenticators h) with
      | (m', e) => (with_ldapAuthenticators (with_oauthAuthenticators h m) m', e)
      end
    end
  end.
Proof.
  unfold setupAuthProviders, entries.
  destruct (url_Parse _) as [extUrl|err]; [|done].
  rewrite (setupOpenIDConnect_eq extUrl).
  rewrite (registerAll_app _ _ _ (inl <$> common.OpenIDConnect (config h))
             (inr <$> common.OAuth (config h))).
  destruct (registerAll _ _ _ (inl <$> _) _) as [m1 [e1|]]; simpl; [done|].
  rewrite (setupOAuth_eq extUrl).
  destruct (registerAll _ _ _ (inr <$> _) _) as [m2 [e2|]]; simpl; [done|].
  rewrite setupLdap_eq.
  destruct (registerAll _ _ _ _ _) as [m3 e3]; simpl; done.
Qed.

(** X1.  [setupAuthProviders] never removes or replaces an authenticator:
    whatever it returns, every identifier that the handler had registered
    is still registered with the same authenticator, and the configuration,
    the session store and the backend are the ones the handler had. *)
Theorem setupAuthProviders_keeps h h' (e : option error) :
  setupAuthProviders h = (h', e) →
  (∀ k a, oauthAuthenticators h !! k = Some a → oauthAuthenticators h' !! k = Some a)
  ∧ (∀ k a, ldapAuthenticators h !! k = Some a → ldapAuthenticators h' !! k = Some a)
  ∧ config h' = config h ∧ session h' = session h ∧ backend h' = backend h.
Proof.
  rewrite setupAuthProviders_eq.
  destruct (url_Parse _) as [extUrl|err]; [|by intros [= <- _]].
  destruct (registerAll _ _ _ (entries _) _) as [m [err|]] eqn:Hrun.
  - intros [= <- _]. simpl. repeat split; [|done].
    apply (registerAll_preserves _ _ _ _ _ _ _ Hrun).
  - destruct (registerAll _ _ _ (common.Ldap _) _) as [m' e'] eqn:Hrun'.
    intros [= <- _]. simpl. repeat split.
    + apply (registerAll_preserves _ _ _ _ _ _ _ Hrun).
    + apply (registerAll_preserves _ _ _ _ _ _ _ Hrun').
Qed.

End SetupMore.

Section NewHandlerMore.
Context `{Collaborators}.
Context {User : Type}.
Implicit Types (cfg : common.Config) (b : core.Backend User).

Lemma NewHandler_Ok_inv cfg b h :
  NewHandler cfg b = Ok h →
  ∃ extUrl,
    url_Parse (common.ExternalUrl cfg) = Ok extUrl
    ∧ registerAll entry_key (entry_build extUrl) entry_failed (entries cfg) ∅ =
      (oauthAuthenticators h, None)
    ∧ registerAll ldap_key NewLdapAuthenticator ldap_failed (common.Ldap cfg) ∅ =
      (ldapAuthenticators h, None)
    ∧ h = {| config := cfg; session := GinSessionStore "wgPortalSession";
             backend := b; oauthAuthenticators := oauthAuthenticators h;
             ldapAuthenticators := ldapAuthenticators h |}.
Proof.
  intros Hnew. rewrite NewHandler_eq in Hnew.
  destruct (url_Parse _) as [extUrl|err] eqn:Hurl; [|done].
  destruct (registerAll _ _ _ (entries cfg) _) as [m [err|]] eqn:Hrun; [done|].
  destruct (registerAll _ _ _ (common.Ldap cfg) _) as [m' [err|]] eqn:Hrun'; [done|].
  injection Hnew as <-. exists extUrl. done.
Qed.

(** X2.  A handler that [NewHandler] returns carries the configuration and
    the backend it was given, and its registry holds exactly the configured
    identifiers: the lower-cased provider names, which are pairwise
    different across the OIDC and OAuth lists, and the lower-cased LDAP URLs,
    which are pairwise different. *)
Theorem NewHandler_registry cfg b h :
  NewHandler cfg b = Ok h →
  config h = cfg ∧ backend h = b
  ∧ NoDup (entry_key <$> entries cfg)
  ∧ NoDup (ldap_key <$> common.Ldap cfg)
  ∧ (∀ k, is_Some (oauthAuthenticators h !! k) ↔ k ∈ entry_key <$> entries cfg)
  ∧ (∀ k, is_Some (ldapAuthenticators h !! k) ↔ k ∈ ldap_key <$> common.Ldap cfg).
Proof.
  intros Hnew. destruct (NewHandler_Ok_inv _ _ _ Hnew) as (extUrl & _ & Hrun & Hrun' & Hh).
  apply registerAll_None in Hrun as (Hnd & _ & Hdom).
  apply registerAll_None in Hrun' as (Hnd' & _ & Hdom').
  split; [by rewrite Hh|]. split; [by rewrite Hh|].
  split; [done|]. split; [done|]. split; intros k.
  - rewrite Hdom, lookup_empty. split; [intros [[? [=]]|?]; done | by right].
  - rewrite Hdom', lookup_empty. split; [intros [[? [=]]|?]; done | by right].
Qed.

(** X3.  In a handler that [NewHandler] returns, every configured provider
    is found under its lower-cased identifier, and what is found is the
    authenticator constructed from that provider's own configuration: for
    OIDC and OAuth with the callback URL of that identifier, for LDAP from
    the entry alone. *)
Theorem NewHandler_authenticators cfg b h :
  NewHandler cfg b = Ok h →
  ∃ extUrl,
    url_Parse (common.ExternalUrl cfg) = Ok extUrl
    ∧ (∀ p, p ∈ common.OpenIDConnect cfg →
         ∃ a, NewOidcAuthenticator
                (redirectUrl extUrl (ToLower (common.oidc_ProviderName p))) p = Ok a
              ∧ oauthAuthenticators h !! ToLower (common.oidc_ProviderName p) = Some a)
    ∧ (∀ p, p ∈ common.OAuth cfg →
         ∃ a, NewPlainOauthAuthenticator
                (redirectUrl extUrl (ToLower (common.oauth_ProviderName p))) p = Ok a
              ∧ oauthAuthenticators h !! ToLower (common.oauth_ProviderName p) = Some a)
    ∧ (∀ p, p ∈ common.Ldap cfg →
         ∃ a, NewLdapAuthenticator p = Ok a
              ∧ ldapAuthenticators h !! ToLower (common.URL p) = Some a).
Proof.
  intros Hnew. destruct (NewHandler_Ok_inv _ _ _ Hnew) as (extUrl & Hurl & Hrun & Hrun' & _).
  exists extUrl. split; [done|].
  pose proof (registerAll_values _ _ _ _ _ _ Hrun) as Hval.
  pose proof (registerAll_values _ _ _ _ _ _ Hrun') as Hval'.
  split; [|split].
  - intros p Hp. apply (Hval (inl p)). unfold entries.
    apply elem_of_app. left. by apply list_elem_of_fmap_2.
  - intros p Hp. apply (Hval (inr p)). unfold entries.
    apply elem_of_app. right. by apply list_elem_of_fmap_2.
  - intros p Hp. by apply (Hval' p).
Qed.

(** X4.  Every error of [NewHandler] is one of five, each annotated with
    [failed to setup authentication providers]: the external URL did not
    parse; an identifier of a configured provider was already registered; or
    the constructor of a configured OIDC, OAuth or LDAP provider returned an
    error, which is annotated with the configured name for OIDC and with the
    lower-cased identifier for OAuth and LDAP. *)
Theorem NewHandler_errors cfg b (err : error) :
  NewHandler cfg b = Err err →
  ∃ cause,
    err = errors.WithMessage cause "failed to setup authentication providers"
    ∧ ((∃ e, url_Parse (common.ExternalUrl cfg) = Err e
           ∧ cause = errors.WithMessage e "failed to parse external url")
       ∨ (∃ providerId,
            (providerId ∈ entry_key <$> entries cfg
             ∨ providerId ∈ ldap_key <$> common.Ldap cfg)
            ∧ cause = already_registered providerId)
       ∨ (∃ extUrl p e,
            url_Parse (common.ExternalUrl cfg) = Ok extUrl
            ∧ p ∈ common.OpenIDConnect cfg
            ∧ NewOidcAuthenticator
                (redirectUrl extUrl (ToLower (common.oidc_ProviderName p))) p = Err e
            ∧ cause = errors.WithMessage e
                        ("failed to setup oidc authentication provider "
                         +:+ common.oidc_ProviderName p))
       ∨ (∃ extUrl p e,
            url_Parse (common.ExternalUrl cfg) = Ok extUrl
            ∧ p ∈ common.OAuth cfg
            ∧ NewPlainOauthAuthenticator
                (redirectUrl extUrl (ToLower (common.oauth_ProviderName p))) p = Err e
            ∧ cause = errors.WithMessage e
                        ("failed to setup oauth authentication provider "
                         +:+ ToLower (common.oauth_ProviderName p)))
       ∨ (∃ p e,
            p ∈ common.Ldap cfg
            ∧ NewLdapAuthenticator p = Err e
            ∧ cause = errors.WithMessage e
                        ("failed to setup ldap authentication provider "
                         +:+ ToLower (common.URL p)))).
Proof.
  rewrite NewHandler_eq.
  destruct (url_Parse _) as [extUrl|e] eqn:Hurl.
  2: { intros [= <-]. eexists. split; [done|]. left. eauto. }
  destruct (registerAll _ _ _ (entries cfg) _) as [m [cause|]] eqn:Hrun.
  - intros [= <-]. exists cause. split; [done|]. right.
    apply registerAll_error in Hrun as [(c & Hc & ->)|(c & e & Hc & Hb & ->)].
    + left. exists (entry_key c). split; [|done]. left. by apply list_elem_of_fmap_2.
    + right. unfold entries in Hc. apply elem_of_app in Hc as [Hc|Hc];
        apply list_elem_of_fmap in Hc as (p & -> & Hp).
      * left. exists extUrl, p, e. done.
      * right; left. exists extUrl, p, e. done.
  - destruct (registerAll _ _ _ (common.Ldap cfg) _) as [m' [cause|]] eqn:Hrun'; [|done].
    intros [= <-]. exists cause. split; [done|]. right.
    apply registerAll_error in Hrun' as [(c & Hc & ->)|(c & e & Hc & Hb & ->)].
    + left. exists (ldap_key c). split; [|done]. right. by apply list_elem_of_fmap_2.
    + right; right; right. exists c, e. done.
Qed.

(** X5.  The first error in list order is the one reported.  When the
    external URL parses, the OIDC and OAuth entries up to and including
    position [j] have pairwise different identifiers, those before [j] are
    constructed and the constructor of the entry at [j] returns an error,
    [NewHandler] fails with that error, annotated for that entry, whatever
    follows in the configuration. *)
Theorem first_construction_failure cfg b (extUrl : url.URL) (j : nat) (e : entry)
    (err : error) :
  url_Parse (common.ExternalUrl cfg) = Ok extUrl →
  entries cfg !! j = Some e →
  NoDup (entry_key <$> take (S j) (entries cfg)) →
  Forall (λ e, errors.is_Ok (entry_build extUrl e)) (take j (entries cfg)) →
  entry_build extUrl e = Err err →
  NewHandler cfg b =
  Err (errors.WithMessage (entry_failed err e) "failed to setup authentication providers").
Proof.
  intros Hurl Hj Hnd Hok Herr. rewrite NewHandler_eq, Hurl.
  rewrite (take_S_r _ _ _ Hj) in Hnd.
  destruct (registerAll_first_failure entry_key (entry_build extUrl) entry_failed
              (take j (entries cfg)) e (drop (S j) (entries cfg)) ∅ err Hnd)
    as (m' & Hrun); [|done|done|].
  - apply Forall_forall. intros c _. apply lookup_empty.
  - rewrite take_drop_middle in Hrun by done. by rewrite Hrun.
Qed.

(** X6.  A failure among the OIDC entries is not changed by the OAuth and
    LDAP entries, and a failure among the OIDC and OAuth entries is not
    changed by the LDAP entries: when the set-up of a configuration without
    the later lists fails, the set-up with them fails with the same error. *)
Theorem earlier_failure_wins cfg cfg' b (err : error) :
  common.ExternalUrl cfg' = common.ExternalUrl cfg →
  common.OpenIDConnect cfg' = common.OpenIDConnect cfg →
  common.Ldap cfg = [] →
  common.OAuth cfg = [] ∨ common.OAuth cfg' = common.OAuth cfg →
  NewHandler cfg b = Err err →
  NewHandler cfg' b = Err err.
Proof.
  intros Hurl Hoidc Hldap Hoauth. rewrite !NewHandler_eq, Hurl, Hldap. simpl.
  destruct (url_Parse _) as [extUrl|e]; [|done].
  unfold entries. rewrite Hoidc.
  destruct Hoauth as [Hnone|Hsame].
  - rewrite Hnone. simpl. rewrite app_nil_r.
    rewrite (registerAll_app _ _ _ (inl <$> common.OpenIDConnect cfg)
               (inr <$> common.OAuth cfg')).
    destruct (registerAll _ _ _ (inl <$> _) _) as [m [cause|]]; done.
  - rewrite Hsame.
    destruct (registerAll _ _ _ _ _) as [m [cause|]]; done.
Qed.

(** X7.  The set-up is not idempotent.  Run again on a handler that
    [NewHandler] returned, [setupAuthProviders] changes nothing and fails
    with the already-registered error of the first provider it visits: the
    first OIDC or OAuth entry, or the first LDAP entry when there is none of
    those.  With no provider at all it succeeds again. *)
Theorem setup_twice cfg b h :
  NewHandler cfg b = Ok h →
  (∀ e rest, entries cfg = e :: rest →
     setupAuthProviders h = (h, Some (already_registered (entry_key e))))
  ∧ (∀ p rest, entries cfg = [] → common.Ldap cfg = p :: rest →
       setupAuthProviders h = (h, Some (already_registered (ldap_key p))))
  ∧ (entries cfg = [] → common.Ldap cfg = [] → setupAuthProviders h = (h, None)).
Proof.
  intros Hnew.
  destruct (NewHandler_Ok_inv _ _ _ Hnew) as (extUrl & Hurl & Hrun & Hrun' & Hh).
  pose proof (registerAll_values _ _ _ _ _ _ Hrun) as Hval.
  pose proof (registerAll_values _ _ _ _ _ _ Hrun') as Hval'.
  assert (Hcfg : config h = cfg) by (by rewrite Hh).
  rewrite setupAuthProviders_eq, Hcfg, Hurl.
  split; [|split].
  - intros e rest Hentries. rewrite Hentries in Hval |- *. simpl.
    destruct (Hval e) as (a & _ & ->); [by left|].
    by destruct h.
  - intros p rest Hentries Hldap. rewrite Hentries, Hldap in *. simpl.
    destruct (Hval' p) as (a & _ & ->); [by left|].
    by destruct h.
  - intros -> ->. simpl. by destruct h.
Qed.

End NewHandlerMore.

(** ** More about the middleware *)

Section MiddlewareMore.
Context `{Collaborators}.
Context {K User : Type}.
Implicit Types (h : handler K User) (c : gin.Context K) (scope : string).

Lemma admitted_dec h scope c : admitted h scope c ∨ ¬ admitted h scope c.
Proof.
  unfold admitted.
  destruct (LoggedIn _); [|right; intros [? _]; done].
  destruct (isUserStillValid _ _); [|right; intros (_ & _ & ?); done].
  destruct (decide (scope = "")) as [->|Hscope]; [left; by eauto|].
  destruct (IsAdmin _); [left; by eauto|].
  right. intros (_ & [?|?] & _); done.
Qed.

(** What keeps a request from being admitted. *)
Lemma not_admitted h scope c :
  ¬ admitted h scope c →
  LoggedIn (GetData (session h) c) = false
  ∨ (LoggedIn (GetData (session h) c) = true
     ∧ scope ≠ "" ∧ IsAdmin (GetData (session h) c) = false)
  ∨ (LoggedIn (GetData (session h) c) = true
     ∧ (scope = "" ∨ IsAdmin (GetData (session h) c) = true)
     ∧ isUserStillValid h (UserIdentifier (GetData (session h) c)) = false).
Proof.
  unfold admitted. intros Hnot.
  destruct (LoggedIn _); [|by left]. right.
  destruct (decide (scope = "")) as [->|Hscope].
  - right. destruct (isUserStillValid _ _); [|by eauto].
    exfalso. apply Hnot. eauto.
  - destruct (IsAdmin _); [|by left]. right.
    destruct (isUserStillValid _ _); [|by eauto].
    exfalso. apply Hnot. eauto.
Qed.

(** An admitted request, on a chain that ends with the middleware and a
    last handler. *)
Lemma run_admitted (fuel : nat) (handlers : list (gin.HandlerFunc K)) h scope c
    (protected : gin.Request → K → gin.ResponseWriter → K * gin.ResponseWriter) :
  guarded handlers c (authenticationMiddleware h scope) →
  handlers !! S (position c) = Some (gin.final protected) →
  length handlers = S (S (position c)) →
  admitted h scope c →
  ∃ c', gin.loop (S (S (S fuel))) handlers c = Some c'
    ∧ gin.index c' = gin.index c + 3
    ∧ gin.Request_ c' = gin.Request_ c
    ∧ gin.trace c' = gin.trace c ++ [position c; S (position c)]
    ∧ (gin.Keys c', gin.Writer c') = protected (gin.Request_ c) (gin.Keys c) (gin.Writer c).
Proof.
  intros Hg Hnext Hlen (Hs & Hscope & Hvalid).
  pose proof Hg as (Hpos & Hat & Hshort). unfold gin.abortIndex in Hshort.
  unfold position in *.
  assert (Hstep : gin.int8 (gin.index c + 1) = gin.index c + 1).
  { apply int8_small. lia. }
  assert (Hstep2 : gin.int8 (gin.index c + 1 + 1) = gin.index c + 2).
  { rewrite int8_small; lia. }
  assert (Hstep3 : gin.int8 (gin.index c + 2 + 1) = gin.index c + 3).
  { rewrite int8_small; lia. }
  assert (Hg' : guarded handlers (gin.step (gin.called c)) (gin.final protected)).
  { unfold guarded, gin.abortIndex. simpl. rewrite Hstep.
    replace (Z.to_nat (gin.index c + 1)) with (S (Z.to_nat (gin.index c))) by lia.
    repeat split; [lia|done|lia]. }
  rewrite (loop_call _ _ _ _ Hg).
  rewrite (middleware_pass h scope _ (gin.called c) Hs Hscope Hvalid).
  rewrite (loop_call _ _ _ _ Hg'). unfold gin.final. cbv beta iota zeta.
  rewrite loop_done;
    [|unfold gin.abortIndex; lia|simpl; rewrite Hstep, Hstep2; lia].
  rewrite loop_done;
    [|unfold gin.abortIndex; lia|simpl; rewrite Hstep, Hstep2, Hstep3; lia].
  eexists. split; [reflexivity|]. simpl.
  split; [by rewrite Hstep, Hstep2, Hstep3|]. split; [done|]. split.
  - rewrite Hstep, <- app_assoc. simpl.
    by replace (Z.to_nat (gin.index c + 1)) with (S (Z.to_nat (gin.index c))) by lia.
  - by destruct (protected _ _ _).
Qed.

(** A request that is not admitted, on any chain. *)
Lemma run_rejected (fuel : nat) (handlers : list (gin.HandlerFunc K)) h scope c :
  guarded handlers c (authenticationMiddleware h scope) →
  ¬ admitted h scope c →
  ∃ c', gin.loop (S (S fuel)) handlers c = Some c'
    ∧ gin.index c' = gin.abortIndex + 1
    ∧ gin.Request_ c' = gin.Request_ c
    ∧ gin.trace c' = gin.trace c ++ [position c].
Proof.
  intros Hg Hnot.
  destruct (not_admitted h scope c Hnot)
    as [Hs|[(Hs & Hscope & Hadmin)|(Hs & Hscope & Hvalid)]].
  - eexists. split; [eapply loop_abort;
      [exact Hg | intros next; apply middleware_not_logged_in; exact Hs | reflexivity]|].
    split; [reflexivity|split; reflexivity].
  - eexists. split; [eapply loop_abort;
      [exact Hg | intros next; apply middleware_scope; [exact Hs|exact Hscope|exact Hadmin]
      | reflexivity]|].
    split; [reflexivity|split; reflexivity].
  - eexists. split; [eapply loop_abort;
      [exact Hg | intros next; apply middleware_invalid; [exact Hs|exact Hscope|exact Hvalid]
      | reflexivity]|].
    split; [reflexivity|split; reflexivity].
Qed.

(** X8.  On a chain that ends with the middleware and the protected handler,
    serving a request always returns, and the protected handler is called
    if and only if the session is logged in, the scope is empty or the
    session is an administrator's, and the backend finds the user active.
    In particular the empty scope admits every logged-in active user. *)
Theorem protected_reached_iff (fuel : nat) (handlers : list (gin.HandlerFunc K)) h scope c
    (protected : gin.Request → K → gin.ResponseWriter → K * gin.ResponseWriter) :
  guarded handlers c (authenticationMiddleware h scope) →
  handlers !! S (position c) = Some (gin.final protected) →
  length handlers = S (S (position c)) →
  S (position c) ∉ gin.trace c →
  ∃ c', gin.loop (S (S (S fuel))) handlers c = Some c'
    ∧ (S (position c) ∈ gin.trace c' ↔
       LoggedIn (GetData (session h) c) = true
       ∧ (scope = "" ∨ IsAdmin (GetData (session h) c) = true)
       ∧ isUserStillValid h (UserIdentifier (GetData (session h) c)) = true).
Proof.
  intros Hg Hnext Hlen Hnew.
  destruct (admitted_dec h scope c) as [Hyes|Hno].
  - destruct (run_admitted fuel handlers h scope c protected Hg Hnext Hlen Hyes)
      as (c' & Hrun & _ & _ & Htrace & _).
    exists c'. split; [done|]. split; [intros _; exact Hyes|intros _].
    rewrite Htrace. apply elem_of_app. right. apply elem_of_cons. right. by left.
  - destruct (run_rejected (S fuel) handlers h scope c Hg Hno)
      as (c' & Hrun & _ & _ & Htrace).
    exists c'. split; [done|]. split; [|intros Hyes; by destruct Hno].
    rewrite Htrace. intros Hin. apply elem_of_app in Hin as [Hin|Hin]; [done|].
    apply list_elem_of_singleton in Hin. lia.
Qed.


(** X10.  Two requests of a client without a logged-in session, one after
    the other, with a session store that keeps its contract: afterwards the
    session is the one the client had before the first request with the URI
    of the second request as its deep-link.  The later request wins, and the
    redirects change nothing else, so a pending error payload survives. *)
Theorem deep_link_of_last_request h scope1 scope2
    (next1 next2 : gin.Context K → option (gin.Context K)) c1 c1' c2 c2' :
  SessionStoreContract (session h) →
  LoggedIn (GetData (session h) c1) = false →
  authenticationMiddleware h scope1 next1 c1 = Some c1' →
  gin.SessionToken (gin.Request_ c2) = gin.SessionToken (gin.Request_ c1) →
  gin.Keys c2 = gin.Keys c1' →
  authenticationMiddleware h scope2 next2 c2 = Some c2' →
  GetData (session h) c2' =
  with_DeepLink (GetData (session h) c1) (gin.RequestURI (gin.Request_ c2)).
Proof.
  intros Hstore Hs1 Hrun1 Htoken Hkeys Hrun2.
  rewrite (middleware_not_logged_in h scope1 next1 c1 Hs1) in Hrun1.
  injection Hrun1 as <-. simpl in Hkeys.
  assert (Hget2 : GetData (session h) c2 =
                  with_DeepLink (GetData (session h) c1) (gin.RequestURI (gin.Request_ c1))).
  { unfold GetData at 1. rewrite Hkeys.
    by rewrite (get_set _ Hstore _ _ _ _ (eq_sym Htoken)). }
  assert (Hs2 : LoggedIn (GetData (session h) c2) = false) by (by rewrite Hget2).
  rewrite (middleware_not_logged_in h scope2 next2 c2 Hs2) in Hrun2.
  injection Hrun2 as <-. unfold GetData at 1. simpl.
  rewrite (get_set _ Hstore) by done. by rewrite Hget2.
Qed.

(** X13.  A request that the CSRF middleware does not accept is answered 400
    with the text [CSRF token mismatch] by the error function, which aborts
    the chain: no handler after the CSRF middleware is called, and the
    session storage is left as it was. *)
Theorem csrf_mismatch (fuel : nat) (handlers : list (gin.HandlerFunc K))
    (verify : string → gin.Request → K → bool) h c :
  guarded handlers c (csrfMiddleware verify h) →
  gin.written (gin.Writer c) = false →
  verify (common.SessionSecret (config h)) (gin.Request_ c) (gin.Keys c) = false →
  ∃ c', gin.loop (S (S fuel)) handlers c = Some c'
    ∧ gin.status (gin.Writer c') = 400
    ∧ gin.body (gin.Writer c') = gin.body (gin.Writer c) +:+ "CSRF token mismatch"
    ∧ gin.Location (gin.Writer c') = gin.Location (gin.Writer c)
    ∧ gin.IsAborted c' = true
    ∧ gin.Keys c' = gin.Keys c
    ∧ gin.trace c' = gin.trace c ++ [position c].
Proof.
  intros Hg Hw Hverify. eexists. split.
  - eapply loop_abort;
      [exact Hg
      | intros next; unfold csrfMiddleware, csrf.Middleware; simpl; by rewrite Hverify
      | reflexivity].
  - simpl. split; [by rewrite WriteHeader_status|].
    split; [by rewrite WriteHeader_body|].
    split; [by rewrite WriteHeader_Location|]. done.
Qed.

Lemma adminRoute_guarded (verify : string → gin.Request → K → bool) h
    (engineHandlers : list (gin.HandlerFunc K)) (page : gin.HandlerFunc K) c :
  gin.index c = Z.of_nat (length engineHandlers) →
  Z.of_nat (length (adminRoute verify h engineHandlers page)) < gin.abortIndex →
  guarded (adminRoute verify h engineHandlers page) c (csrfMiddleware verify h)
  ∧ guarded (adminRoute verify h engineHandlers page) (gin.step (gin.called c))
      (authenticationMiddleware h "admin")
  ∧ adminRoute verify h engineHandlers page
      !! S (position (gin.step (gin.called c))) = Some page
  ∧ length (adminRoute verify h engineHandlers page) =
    S (S (position (gin.step (gin.called c))))
  ∧ position c = length engineHandlers
  ∧ position (gin.step (gin.called c)) = S (length engineHandlers).
Proof.
  intros Hidx Hshort. unfold adminRoute in *. unfold gin.abortIndex in Hshort.
  rewrite length_app in Hshort. simpl in Hshort.
  assert (Hpos : position c = length engineHandlers).
  { unfold position. rewrite Hidx. lia. }
  assert (Hpos' : position (gin.step (gin.called c)) = S (length engineHandlers)).
  { unfold position. simpl. rewrite Hidx, int8_small by lia. lia. }
  unfold guarded. rewrite Hpos'. unfold position in Hpos, Hpos'.
  rewrite Hpos, Hpos', length_app. simpl. rewrite Hidx, int8_small by lia.
  unfold gin.abortIndex.
  repeat split; try lia.
  - by apply list_lookup_middle.
  - rewrite lookup_app_r by lia.
    by replace (S (length engineHandlers) - length engineHandlers)%nat with 1%nat by lia.
  - rewrite lookup_app_r by lia.
    by replace (S (S (length engineHandlers)) - length engineHandlers)%nat with 2%nat by lia.
  - unfold position. exact Hpos.
Qed.

(** X14.  The routes of the admin group, as [RegisterRoutes] sets them up:
    serving a request always returns, and the page is called if and only if
    the CSRF middleware accepts the request, the session is logged in and an
    administrator's, and the backend finds the user active. *)
Theorem admin_page_reached_iff (fuel : nat) (verify : string → gin.Request → K → bool) h
    (engineHandlers : list (gin.HandlerFunc K)) c
    (page : gin.Request → K → gin.ResponseWriter → K * gin.ResponseWriter) :
  gin.index c = Z.of_nat (length engineHandlers) →
  Z.of_nat (length (adminRoute verify h engineHandlers (gin.final page))) < gin.abortIndex →
  S (S (length engineHandlers)) ∉ gin.trace c →
  ∃ c', gin.loop (S (S (S (S fuel)))) (adminRoute verify h engineHandlers (gin.final page)) c
        = Some c'
    ∧ (S (S (length engineHandlers)) ∈ gin.trace c' ↔
       verify (common.SessionSecret (config h)) (gin.Request_ c) (gin.Keys c) = true
       ∧ LoggedIn (GetData (session h) c) = true
       ∧ IsAdmin (GetData (session h) c) = true
       ∧ isUserStillValid h (UserIdentifier (GetData (session h) c)) = true).
Proof.
  intros Hidx Hshort Hnew.
  destruct (adminRoute_guarded verify h engineHandlers (gin.final page) c Hidx Hshort)
    as (Hg & Hg' & Hpage & Hlen & Hpos & Hpos').
  set (handlers := adminRoute verify h engineHandlers (gin.final page)) in *.
  assert (Hlen' : Z.of_nat (length handlers) = gin.index c + 3).
  { rewrite Hlen, Hpos', Hidx. lia. }
  unfold gin.abortIndex in Hshort.
  destruct (verify (common.SessionSecret (config h)) (gin.Request_ c) (gin.Keys c))
    eqn:Hverify.
  - assert (Hcsrf : ∀ next, csrfMiddleware verify h next (gin.called c) = next (gin.called c)).
    { intros next. unfold csrfMiddleware, csrf.Middleware. simpl. by rewrite Hverify. }
    rewrite (loop_call _ _ _ _ Hg), Hcsrf. cbv beta.
    destruct (admitted_dec h "admin" (gin.step (gin.called c))) as [Hyes|Hno].
    + destruct (run_admitted fuel handlers h "admin" _ page Hg' Hpage Hlen Hyes)
        as (c' & -> & Hidx' & _ & Htrace & _).
      simpl in Hidx', Htrace.
      assert (Hidx1 : gin.int8 (gin.index c + 1) = gin.index c + 1)
        by (apply int8_small; lia).
      rewrite Hidx1 in Hidx'.
      rewrite loop_done;
        [|unfold gin.abortIndex; lia|simpl; rewrite Hidx', int8_small by lia; lia].
      eexists. split; [reflexivity|]. simpl. rewrite Htrace, Hpos'. split.
      * intros _. destruct Hyes as (Hs & [?|Hadmin] & Hvalid); [done|]. done.
      * intros _. apply elem_of_app. right. apply elem_of_cons. right. by left.
    + destruct (run_rejected (S fuel) handlers h "admin" _ Hg' Hno)
        as (c' & -> & Hidx' & _ & Htrace).
      simpl in Htrace.
      rewrite loop_done;
        [|unfold gin.abortIndex; lia
         |simpl; rewrite Hidx'; unfold gin.abortIndex; rewrite int8_small by lia; lia].
      eexists. split; [reflexivity|]. simpl. rewrite Htrace, Hpos'. split.
      * intros Hin. exfalso. rewrite <- app_assoc in Hin.
        apply elem_of_app in Hin as [Hin|Hin]; [done|].
        unfold position in Hpos. rewrite Hpos in Hin.
        apply elem_of_cons in Hin as [Hin|Hin]; [lia|].
        apply list_elem_of_singleton in Hin. lia.
      * intros (_ & Hs & Hadmin & Hvalid). destruct Hno. unfold admitted. eauto.
  - eexists. split.
    + eapply loop_abort;
        [exact Hg
        | intros next; unfold csrfMiddleware, csrf.Middleware; simpl; by rewrite Hverify
        | reflexivity].
    + simpl. split; [|intros [? _]; done].
      intros Hin. apply elem_of_app in Hin as [Hin|Hin]; [done|].
      apply list_elem_of_singleton in Hin. unfold position in Hpos. lia.
Qed.

End MiddlewareMore.

Section ReporterMore.
Context `{Collaborators}.
Context {K User : Type}.
Implicit Types (h : handler K User) (c : gin.Context K).

(** X11.  Two calls of [HandleError] for a client, with a session store
    that keeps its contract: the session then carries the payload of the
    second call alone, and otherwise is the session from before the first
    call. *)
Theorem HandleError_twice h c c2 (code code2 : Z) (err err2 : error)
    (details details2 : string) :
  SessionStoreContract (session h) →
  gin.SessionToken (gin.Request_ c2) = gin.SessionToken (gin.Request_ c) →
  gin.Keys c2 = gin.Keys (HandleError h c code err details) →
  GetData (session h) (HandleError h c2 code2 err2 details2) =
  with_Error (GetData (session h) c) (Some (reported c2 code2 err2 details2)).
Proof.
  intros Hstore Htoken Hkeys. rewrite !HandleError_eq in *.
  simpl in Hkeys. unfold GetData at 1. simpl.
  rewrite (get_set _ Hstore) by done.
  unfold GetData at 1. rewrite Hkeys.
  by rewrite (get_set _ Hstore _ _ _ _ (eq_sym Htoken)).
Qed.

(** X12.  A request that matches no route: the handler given to [NoRoute]
    stores a payload with code 404 whose path is [/] and whose details name
    the path that was asked for, and redirects to [/oops]; it does not abort
    the chain. *)
Theorem noRoute_reports h (next : gin.Context K → option (gin.Context K)) c :
  ∃ c', noRoute h next c = Some c'
    ∧ gin.Keys c' =
      setData (session h) (gin.Request_ c)
        (with_Error (GetData (session h) c)
           (Some {| Message := "Oops... you have reached the end of the internet";
                    Details := "Requested page " +:+ url.Path (gin.URL (gin.Request_ c))
                               +:+ " not found";
                    Code := 404;
                    Path := "/" |}))
        (gin.Keys c)
    ∧ gin.Location (gin.Writer c') = Some "/oops"
    ∧ (gin.written (gin.Writer c) = false → gin.status (gin.Writer c') = 303)
    ∧ gin.index c' = gin.index c.
Proof.
  unfold noRoute. rewrite HandleError_eq. eexists. split; [reflexivity|]. simpl.
  split; [reflexivity|]. split; [by rewrite WriteHeader_Location|].
  split; [|reflexivity]. intros Hw. by rewrite WriteHeader_status.
Qed.

(** X15.  Reporting an error changes no later decision of the middleware:
    with a session store that keeps its contract, a later request of the
    same client is admitted after [HandleError] exactly when it was admitted
    before. *)
Theorem HandleError_keeps_admission h scope c c2 (code : Z) (err : error)
    (details : string) :
  SessionStoreContract (session h) →
  gin.SessionToken (gin.Request_ c2) = gin.SessionToken (gin.Request_ c) →
  gin.Keys c2 = gin.Keys (HandleError h c code err details) →
  admitted h scope c2 ↔ admitted h scope c.
Proof.
  intros Hstore Htoken Hkeys. rewrite HandleError_eq in Hkeys. simpl in Hkeys.
  assert (Hget : GetData (session h) c2 =
                 with_Error (GetData (session h) c) (Some (reported c code err details))).
  { unfold GetData at 1. rewrite Hkeys.
    by rewrite (get_set _ Hstore _ _ _ _ (eq_sym Htoken)). }
  unfold admitted. rewrite Hget. done.
Qed.

End ReporterMore.

(** ** The further statements on the sample portal *)

Lemma setupAuthProviders_keeps_witness :
  ∃ h' e, setupAuthProviders half_set_up = (h', e)
    ∧ oauthAuthenticators h' !! "github" = Some "kept".
Proof.
  eexists _, _. split; [reflexivity|].
  apply (proj1 (setupAuthProviders_keeps (H := reachable) half_set_up _ _ eq_refl)).
  reflexivity.
Defined.

Lemma NewHandler_registry_witness :
  ∃ h, NewHandler (H := reachable) two_families one_user = Ok h
    ∧ is_Some (oauthAuthenticators h !! "github")
    ∧ ¬ is_Some (oauthAuthenticators h !! "GitHub").
Proof.
  eexists. split; [reflexivity|].
  destruct (NewHandler_registry (H := reachable) two_families one_user _ eq_refl)
    as (_ & _ & _ & _ & Hoauth & _).
  split.
  - apply Hoauth. right. left.
  - intros Hin. apply Hoauth in Hin.
    apply elem_of_cons in Hin as [Hin|Hin]; [discriminate Hin|].
    apply elem_of_cons in Hin as [Hin|Hin]; [discriminate Hin|].
    by apply elem_of_nil in Hin.
Defined.

Lemma NewHandler_authenticators_witness :
  ∃ h, NewHandler (H := reachable) two_families one_user = Ok h
    ∧ oauthAuthenticators h !! "google" =
      Some "https://vpn.example.org/auth/login/google/callback".
Proof.
  eexists. split; [reflexivity|].
  destruct (NewHandler_authenticators (H := reachable) two_families one_user _ eq_refl)
    as (extUrl & Hurl & Hoidc & _ & _).
  injection Hurl as <-.
  destruct (Hoidc {| common.oidc_ProviderName := "Google" |}) as (a & Ha & Hlookup);
    [left|].
  injection Ha as <-. exact Hlookup.
Defined.

Lemma NewHandler_errors_witness :
  ∃ cause,
    errors.WithMessage
      (errors.WithMessage (errors.New "context deadline exceeded")
         "failed to setup oidc authentication provider Google")
      "failed to setup authentication providers" =
    errors.WithMessage cause "failed to setup authentication providers".
Proof.
  destruct (NewHandler_errors (H := unreachable) twice_google one_user _ eq_refl)
    as (cause & Hcause & _).
  exists cause. exact Hcause.
Defined.

Lemma first_construction_failure_witness :
  NewHandler (H := unreachable) two_families one_user =
  Err (errors.WithMessage
         (errors.WithMessage (errors.New "context deadline exceeded")
            "failed to setup oidc authentication provider Google")
         "failed to setup authentication providers").
Proof.
  apply (first_construction_failure (H := unreachable) two_families one_user
           (url.mkURL "https" "vpn.example.org" "") 0
           (inl {| common.oidc_ProviderName := "Google" |})
           (errors.New "context deadline exceeded")).
  - reflexivity.
  - reflexivity.
  - apply NoDup_singleton.
  - constructor.
  - reflexivity.
Defined.

Lemma earlier_failure_wins_witness :
  NewHandler (H := reachable)
    {| common.ExternalUrl := "vpn.example.org";
       common.SessionSecret := "other secret";
       common.OpenIDConnect := common.OpenIDConnect twice_google;
       common.OAuth := common.OAuth two_families;
       common.Ldap := common.Ldap twice_ldap |} one_user =
  Err (duplicate_provider_error "google").
Proof.
  apply (earlier_failure_wins (H := reachable) twice_google _ one_user
           (duplicate_provider_error "google"));
    [reflexivity | reflexivity | reflexivity | left; reflexivity | reflexivity].
Defined.

Lemma setup_twice_witness :
  ∃ h, NewHandler (H := reachable) two_families one_user = Ok h
    ∧ setupAuthProviders h = (h, Some (already_registered "google")).
Proof.
  eexists. split; [reflexivity|].
  destruct (setup_twice (H := reachable) two_families one_user _ eq_refl) as (Hagain & _).
  exact (Hagain (inl {| common.oidc_ProviderName := "Google" |})
           [inr {| common.oauth_ProviderName := "GitHub" |}] eq_refl).
Defined.

(** Alice's request reaches the page of a route with an empty scope; Bob's,
    whose account the backend does not know, does not. *)
Lemma protected_reached_iff_witness :
  (∃ c', gin.loop 3 (route "") (arriving (request "alice" "/user/profile")) = Some c'
     ∧ 1%nat ∈ gin.trace c')
  ∧ (∃ c', gin.loop 3 (route "") (arriving (request "bob" "/user/profile")) = Some c'
       ∧ 1%nat ∉ gin.trace c').
Proof.
  split.
  - destruct (protected_reached_iff (H := reachable) 0 (route "") portal ""
                (arriving (request "alice" "/user/profile"))
                (λ _ k w, (k, {| gin.status := 200; gin.written := true;
                                 gin.Location := gin.Location w;
                                 gin.body := gin.body w +:+ "users" |}))
                (route_guarded "" "alice" "/user/profile") eq_refl eq_refl
                (not_elem_of_nil _))
      as (c' & Hrun & Hiff).
    exists c'. split; [exact Hrun|]. apply Hiff.
    split; [reflexivity|]. split; [left; reflexivity|reflexivity].
  - destruct (protected_reached_iff (H := reachable) 0 (route "") portal ""
                (arriving (request "bob" "/user/profile"))
                (λ _ k w, (k, {| gin.status := 200; gin.written := true;
                                 gin.Location := gin.Location w;
                                 gin.body := gin.body w +:+ "users" |}))
                (route_guarded "" "bob" "/user/profile") eq_refl eq_refl
                (not_elem_of_nil _))
      as (c' & Hrun & Hiff).
    exists c'. split; [exact Hrun|]. intros Hin. apply Hiff in Hin as (_ & _ & Hvalid).
    discriminate Hvalid.
Defined.


Lemma deep_link_of_last_request_witness :
  ∃ c1' c2',
    authenticationMiddleware portal "admin" Some (arriving (request "dave" "/admin/users")) =
    Some c1'
    ∧ authenticationMiddleware portal "admin" Some
        (gin.with_Keys (arriving (request "dave" "/admin/")) (gin.Keys c1')) = Some c2'
    ∧ DeepLink (GetData (session portal) c2') = "/admin/".
Proof.
  eexists _, _. split; [reflexivity|]. split; [reflexivity|].
  exact (f_equal DeepLink
           (deep_link_of_last_request (H := reachable) portal "admin" "admin" Some Some
              (arriving (request "dave" "/admin/users")) _
              (gin.with_Keys (arriving (request "dave" "/admin/")) _) _
              (GinSessionStore_contract "wgPortalSession")
              eq_refl eq_refl eq_refl eq_refl eq_refl)).
Defined.

Lemma csrf_mismatch_witness :
  ∃ c', gin.loop 2 (adminRoute only_get portal [] page)
          (arriving (post "alice" "/admin/users")) = Some c'
    ∧ gin.status (gin.Writer c') = 400
    ∧ gin.body (gin.Writer c') = "CSRF token mismatch"
    ∧ gin.trace c' = [0%nat].
Proof.
  assert (Hg : guarded (adminRoute only_get portal [] page)
                 (arriving (post "alice" "/admin/users"))
                 (csrfMiddleware only_get portal)).
  { split; [done|]. split; reflexivity. }
  destruct (csrf_mismatch (H := reachable) 0 (adminRoute only_get portal [] page) only_get
              portal (arriving (post "alice" "/admin/users")) Hg eq_refl eq_refl)
    as (c' & Hrun & Hstatus & Hbody & _ & _ & _ & Htrace).
  exists c'. split; [exact Hrun|]. split; [exact Hstatus|]. split; [exact Hbody|exact Htrace].
Defined.

Lemma admin_page_reached_iff_witness :
  ∃ c', gin.loop 4 (adminRoute only_get portal [] page)
          (arriving (request "alice" "/admin/users")) = Some c'
    ∧ 2%nat ∈ gin.trace c'.
Proof.
  destruct (admin_page_reached_iff (H := reachable) 0 only_get portal []
              (arriving (request "alice" "/admin/users"))
              (λ _ k w, (k, {| gin.status := 200; gin.written := true;
                               gin.Location := gin.Location w;
                               gin.body := gin.body w +:+ "users" |}))
              eq_refl eq_refl (not_elem_of_nil _))
    as (c' & Hrun & Hiff).
  exists c'. split; [exact Hrun|]. apply Hiff.
  split; [reflexivity|]. split; [reflexivity|]. split; reflexivity.
Defined.

Lemma HandleError_twice_witness :
  Error (GetData (session portal)
           (HandleError portal
              (gin.with_Keys (arriving (request "bob" "/second"))
                 (gin.Keys (HandleError portal (arriving (request "bob" "/first")) 500
                              (errors.New "first") "one")))
              404 (errors.New "second") "two")) =
  Some {| Message := "second"; Details := "two"; Code := 404; Path := "/" |}.
Proof.
  exact (f_equal Error
           (HandleError_twice (H := reachable) portal (arriving (request "bob" "/first"))
              (gin.with_Keys (arriving (request "bob" "/second"))
                 (gin.Keys (HandleError portal (arriving (request "bob" "/first")) 500
                              (errors.New "first") "one")))
              500 404 (errors.New "first") (errors.New "second") "one" "two"
              (GinSessionStore_contract "wgPortalSession") eq_refl eq_refl)).
Defined.

Lemma noRoute_reports_witness :
  ∃ c', noRoute portal Some (arriving (request "bob" "/nowhere")) = Some c'
    ∧ gin.Location (gin.Writer c') = Some "/oops"
    ∧ gin.status (gin.Writer c') = 303.
Proof.
  destruct (noRoute_reports (H := reachable) portal Some (arriving (request "bob" "/nowhere")))
    as (c' & Hrun & _ & Hloc & Hstatus & _).
  exists c'. split; [exact Hrun|]. split; [exact Hloc|exact (Hstatus eq_refl)].
Defined.

(** Alice is admitted before and after an error was reported to her. *)
Lemma HandleError_keeps_admission_witness :
  admitted portal "admin"
    (gin.with_Keys (arriving (request "alice" "/admin/users"))
       (gin.Keys (HandleError portal (arriving (request "alice" "/admin/broken")) 500
                    (errors.New "boom") "details"))).
Proof.
  apply (proj2 (HandleError_keeps_admission (H := reachable) portal "admin"
                  (arriving (request "alice" "/admin/broken"))
                  (gin.with_Keys (arriving (request "alice" "/admin/users"))
                     (gin.Keys (HandleError portal (arriving (request "alice" "/admin/broken"))
                                  500 (errors.New "boom") "details")))
                  500 (errors.New "boom") "details"
                  (GinSessionStore_contract "wgPortalSession") eq_refl eq_refl)).
  split; [reflexivity|]. split; [right; reflexivity|reflexivity].
Defined.

End ui.
